(** * Saviour: view logic of the chat, dashboard and profile screens

    A shallow embedding of the pure and state-passing parts of three
    screens of the application:

    - the employee chat screen (role gate, message subscription,
      read receipts, [formatFileSize], [formatDuration]);
    - the employee dashboard ([isToday], [todaysAlerts]);
    - the profile screen ([handleToggleNotifications],
      [handleManageBlocked]).

    React state hooks become record fields that handlers pass along,
    calls into the platform (alerts, navigation, document writes) become
    entries of an effect log, and the outcome of a remote write is an
    input of the handler that awaits it. *)

From Stdlib Require Import ZArith List String Ascii Bool Lia.
From Stdlib Require Import QArith Qround DecimalString Lqa.
From Stdlib Require Import Permutation Sorting.Sorted.
Import ListNotations.

Open Scope string_scope.
Open Scope Z_scope.

(* ================================================================== *)
(** * JavaScript values *)
(* ================================================================== *)

Module JS.

(** A JavaScript string is read as its sequence of code units; the
    embedding covers the code units below 256. *)

(** [`${n}`] for an integer-valued number below 10^21 in magnitude:
    its decimal digits, with a leading minus sign when negative. *)
Definition showZ (z : Z) : string :=
  NilZero.string_of_int (Z.to_int z).

(** [s || d]: the empty string is falsy, and so is a missing field. *)
Definition orElse (s : option string) (d : string) : string :=
  match s with
  | Some v => if (v =? "")%string then d else v
  | None => d
  end.

(** [Array.prototype.includes] on an array of strings. *)
Fixpoint includes (l : list string) (x : string) : bool :=
  match l with
  | [] => false
  | y :: l' => if (y =? x)%string then true else includes l' x
  end.

(** [Math.floor]. *)
Definition floor (x : Q) : Z := Qfloor x.

(** Truncation toward zero, the integer quotient of [%]. *)
Definition trunc (x : Q) : Z := Z.quot (Qnum x) (Zpos (Qden x)).

(** [x % y] on numbers: the remainder has the sign of the dividend. *)
Definition rem (x y : Q) : Q := (x - y * inject_Z (trunc (x / y)))%Q.

(** [x.toFixed(1)] for a magnitude below 10^21: the integer [n] for
    which [n / 10 - x] is closest to zero, the larger one on a tie,
    printed with one digit after the point. *)
Definition toFixed1 (x : Q) : string :=
  let neg := Qlt_le_dec x 0 in
  let ax := if neg then Qopp x else x in
  let n := Qfloor (ax * 10 + (1 # 2))%Q in
  ((if neg then "-" else "") ++ showZ (n / 10) ++ "." ++ showZ (n mod 10))%string.

End JS.

(* ================================================================== *)
(** * The effect log shared by the screens *)
(* ================================================================== *)

(** Fields written by [updateDoc]. *)
Inductive Patch : Type :=
| PReadBy (readBy : list string)
| PNotifications (value : bool)
| PBlockedUsers (blockedUsers : list string).

Inductive Effect : Type :=
| AlertE (title message : string)       (* Alert.alert(title, message) *)
| RouterBack                            (* router.back() *)
| ConsoleError (message : string)       (* console.error(message, ...) *)
| UpdateDoc (coll docId : string) (p : Patch)  (* updateDoc(doc(db, coll, id), p) *)
| Subscribe (coll whereCity : string).  (* onSnapshot(query(...), ...) *)

(* ================================================================== *)
(** * Chat screen *)
(* ================================================================== *)

Module ChatScreen.

Inductive MessageType : Type :=
| text | image | video | document | audio | location.

(** [Date] values of the message list: milliseconds since the epoch. *)
Definition Date := Z.

Record Metadata : Type := mkMetadata {
  uri : option string;
  duration : option Q;
  latitude : option Q;
  longitude : option Q;
  fileName : option string;
  fileSize : option Z
}.

Definition emptyMetadata : Metadata :=
  mkMetadata None None None None None None.

Record Message : Type := mkMessage {
  id : string;
  senderId : string;
  senderName : string;
  senderEmail : string;
  senderCity : string;
  city : string;
  content : string;
  type : MessageType;
  timestamp : option Date;
  readBy : list string;
  metadata : Metadata
}.

(** ** Formatting helpers *)

(** [bytes] is an optional integer byte count. *)
Definition formatFileSize (bytes : option Z) : string :=
  match bytes with
  | None => "Unknown size"
  | Some b =>
      if b =? 0 then "Unknown size"
      else if b <? 1024 then (JS.showZ b ++ " B")%string
      else if b <? 1048576
           then (JS.toFixed1 (inject_Z b / 1024) ++ " KB")%string
           else (JS.toFixed1 (inject_Z b / 1048576) ++ " MB")%string
  end.

(** [seconds] is an optional number.  The source computes on doubles,
    the embedding on exact rationals; the two give the same minutes and
    seconds for every double below 2^53.  There [%] and [Math.floor]
    are exact, whole numbers are printed digit by digit, and the
    rounding of [seconds / 60] never reaches the next whole number:
    below a multiple [60 * k] the nearest double is at least one unit
    in the last place away, which is more than 60 times half the
    spacing of the doubles below [k].  Above 2^55 some doubles lie
    closer to a multiple of 60 than that, and for them the source
    prints one minute more than the embedding; the properties below
    stay under 2^53. *)
Definition formatDuration (seconds : option Q) : string :=
  match seconds with
  | None => "0:00"
  | Some s =>
      if Qeq_bool s 0 then "0:00"
      else
        let mins := JS.floor (s / 60) in
        let secs := JS.floor (JS.rem s 60) in
        (JS.showZ mins ++ ":" ++ (if (secs <? 10)%Z then "0" else "")
           ++ JS.showZ secs)%string
  end.

(** ** Documents of the [messages] collection *)

(** What [docSnap.data()] returns: every field may be missing.
    [d_timestamp] is a backend timestamp, given by the instant (in
    milliseconds) that its [toDate()] denotes; [d_readBy] is present
    when the stored value is an array. *)
Record DocumentData : Type := mkData {
  d_senderId : option string;
  d_senderName : option string;
  d_senderEmail : option string;
  d_senderCity : option string;
  d_city : option string;
  d_content : option string;
  d_type : option MessageType;
  d_timestamp : option Z;
  d_readBy : option (list string);
  d_metadata : option Metadata
}.

Record DocSnap : Type := mkDoc {
  docId : string;
  data : DocumentData
}.

(** The query the screen builds:
    [query(messagesRef, where('city', '==', city), orderBy('timestamp', 'asc'))].
    The query is evaluated by the backend, not by code of the screen:
    [runQuery] stands for it over the stored documents.  The backend
    keeps the documents whose [city] field equals the argument and that
    carry the ordering field, and returns them in ascending order of
    that field, documents with equal timestamps in ascending order of
    their ids. *)
Definition whereCity (c : string) (d : DocSnap) : bool :=
  match d_city (data d) with
  | Some c' => (c' =? c)%string
  | None => false
  end.

Definition hasTimestamp (d : DocSnap) : bool :=
  match d_timestamp (data d) with
  | Some _ => true
  | None => false
  end.

Definition tsKey (d : DocSnap) : Z :=
  match d_timestamp (data d) with
  | Some t => t
  | None => 0
  end.

(** [d] comes before [e] in the order of the query. *)
Definition before (d e : DocSnap) : bool :=
  (tsKey d <? tsKey e)
  || ((tsKey d =? tsKey e) && String.ltb (docId d) (docId e)).

Fixpoint insertAsc (d : DocSnap) (l : list DocSnap) : list DocSnap :=
  match l with
  | [] => [d]
  | e :: l' =>
      if before d e then d :: e :: l' else e :: insertAsc d l'
  end.

Definition orderByTimestampAsc (l : list DocSnap) : list DocSnap :=
  fold_right insertAsc [] (filter hasTimestamp l).

Definition runQuery (c : string) (coll : list DocSnap) : list DocSnap :=
  orderByTimestampAsc (filter (whereCity c) coll).

(** ** Screen state *)

(** The profile document of [users/<uid>]. *)
Record UserData : Type := mkUserData {
  ud_uid : option string;
  role : option string;
  name : option string;
  fullName : option string;
  email : option string;
  ud_city : option string
}.

(** The [user] state: [{ uid: user.uid, ...userData }]; a [uid] field
    of the profile document overrides the authenticated one. *)
Record User : Type := mkUser {
  uid : string;
  profile : UserData
}.

Definition spreadUser (authUid : string) (userData : UserData) : User :=
  mkUser (match ud_uid userData with Some u => u | None => authUid end)
         userData.

Record State : Type := mkState {
  messages : list Message;
  isLoading : bool;
  user : option User
}.

Definition initialState : State := mkState [] true None.

Definition setMessages (ms : list Message) (st : State) : State :=
  mkState ms (isLoading st) (user st).
Definition setIsLoading (b : bool) (st : State) : State :=
  mkState (messages st) b (user st).
Definition setUser (u : User) (st : State) : State :=
  mkState (messages st) (isLoading st) (Some u).

(** ** The role gate *)

(** Outcome of [getDoc(userRef)]: the promise rejects, or resolves to
    a snapshot that exists or not. *)
Inductive GetDoc : Type :=
| GetRejected
| GetResolved (docSnap : option UserData).

(** [userData.role !== 'employee'] *)
Definition notEmployee (userData : UserData) : bool :=
  match role userData with
  | Some r => negb (r =? "employee")%string
  | None => true
  end.

(** The listener passed to [onAuthStateChanged], with the outcome of
    the profile read it starts. *)
Definition onAuthStateChanged (authUser : option string) (got : GetDoc)
    (st : State) : State * list Effect :=
  match authUser with
  | Some authUid =>
      match got with
      | GetResolved (Some userData) =>
          if notEmployee userData
          then (st, [AlertE "Access Denied" "Only employees can access this chat";
                     RouterBack])
          else (setUser (spreadUser authUid userData) st, [])
      | GetResolved None => (st, [RouterBack])
      | GetRejected => (st, [])
      end
  | None => (st, [RouterBack])
  end.

(** ** Read receipts *)

Definition isUnread (u : User) (msg : Message) : bool :=
  negb (senderId msg =? uid u)%string
  && negb (JS.includes (readBy msg) (uid u)).

Definition markMessagesAsRead (usr : option User) (msgs : list Message)
    : list Effect :=
  match usr with
  | None => []
  | Some u =>
      let unreadMessages := filter (isUnread u) msgs in
      if (0 <? List.length unreadMessages)%nat
      then map (fun message =>
                  UpdateDoc "messages" (id message)
                            (PReadBy (readBy message ++ [uid u])%list))
               unreadMessages
      else []
  end.

(** ** The message subscription *)

Definition toMessage (docSnap : DocSnap) : Message :=
  let d := data docSnap in
  {| id := docId docSnap;
     senderId := JS.orElse (d_senderId d) "";
     senderName := JS.orElse (d_senderName d) "";
     senderEmail := JS.orElse (d_senderEmail d) "";
     senderCity := JS.orElse (d_senderCity d) "";
     city := JS.orElse (d_city d) "";
     content := JS.orElse (d_content d) "";
     type := match d_type d with Some t => t | None => text end;
     timestamp := d_timestamp d;
     readBy := match d_readBy d with Some l => l | None => [] end;
     metadata := match d_metadata d with Some m => m | None => emptyMetadata end
  |}.

(** The snapshot listener: rebuilds the list in snapshot order, stores
    it and marks it as read. *)
Definition onSnapshot (snapshot : list DocSnap) (st : State)
    : State * list Effect :=
  let messagesData := map toMessage snapshot in
  (setIsLoading false (setMessages messagesData st),
   markMessagesAsRead (user st) messagesData).

(** The effect with dependencies [[city, user]]: it returns at once
    without a city or a user, and subscribes to the query otherwise. *)
Definition messagesEffect (cityParam : option string) (st : State)
    : State * list Effect :=
  match cityParam, user st with
  | Some c, Some _ =>
      if (c =? "")%string then (st, [])
      else (setIsLoading true st, [Subscribe "messages" c])
  | _, _ => (st, [])
  end.

(** The first snapshot a subscription delivers for a collection. *)
Definition subscribeAndReceive (cityParam : option string)
    (coll : list DocSnap) (st : State) : State * list Effect :=
  let (st1, effs) := messagesEffect cityParam st in
  match effs with
  | [Subscribe _ c] =>
      let (st2, effs2) := onSnapshot (runQuery c coll) st1 in
      (st2, (effs ++ effs2)%list)
  | _ => (st1, effs)
  end.

(** ** The backend's side of a write *)

Definition setReadBy (rb : list string) (d : DocSnap) : DocSnap :=
  let x := data d in
  mkDoc (docId d)
        (mkData (d_senderId x) (d_senderName x) (d_senderEmail x)
                (d_senderCity x) (d_city x) (d_content x) (d_type x)
                (d_timestamp x) (Some rb) (d_metadata x)).

(** [updateDoc] on a message document replaces the written field and
    leaves the others. *)
Definition applyUpdate (e : Effect) (coll : list DocSnap) : list DocSnap :=
  match e with
  | UpdateDoc c i (PReadBy rb) =>
      if (c =? "messages")%string
      then map (fun d => if (docId d =? i)%string then setReadBy rb d else d) coll
      else coll
  | _ => coll
  end.

Definition applyUpdates (es : list Effect) (coll : list DocSnap)
    : list DocSnap :=
  fold_left (fun c e => applyUpdate e c) es coll.

(** One round of the screen against the collection: the snapshot for
    the selected city is turned into messages, and the writes that
    [markMessagesAsRead] issues for them reach the collection. *)
Definition markRound (u : User) (c : string) (coll : list DocSnap)
    : list DocSnap :=
  applyUpdates (markMessagesAsRead (Some u) (map toMessage (runQuery c coll)))
               coll.

(** ** Traces of authentication events *)

(** A profile read that does not show an employee: the document does
    not exist, or its [role] is missing or differs from ['employee']. *)
Definition deniedProfile (got : GetDoc) : Prop :=
  match got with
  | GetResolved None => True
  | GetResolved (Some userData) => role userData <> Some "employee"
  | GetRejected => False
  end.

(** The listener run over successive authentication events, each an
    authenticated uid with the outcome of its profile read. *)
Fixpoint runAuth (events : list (string * GetDoc)) (st : State)
    : State * list Effect :=
  match events with
  | [] => (st, [])
  | (authUid, got) :: rest =>
      let (st1, effs1) := onAuthStateChanged (Some authUid) got st in
      let (st2, effs2) := runAuth rest st1 in
      (st2, (effs1 ++ effs2)%list)
  end.

(** The documents that [markMessagesAsRead] patches, by id. *)
Definition patchedIds (effs : list Effect) : list string :=
  flat_map (fun e => match e with
                     | UpdateDoc _ i _ => [i]
                     | _ => []
                     end) effs.

(** The stored documents a city's message list is made of: their
    [city] field is the city and they have a [timestamp] field. *)
Definition datedIn (c : string) (d : DocSnap) : bool :=
  match d_city (data d), d_timestamp (data d) with
  | Some c', Some _ => (c' =? c)%string
  | _, _ => false
  end.


(** ** Characterisations used in the proofs *)


(** The [readBy] list the screen shows for a document. *)
Definition readByOf (d : DocSnap) : list string := readBy (toMessage d).

(** What one round does to a single document. *)
Definition markDoc (u : User) (c : string) (d : DocSnap) : DocSnap :=
  if whereCity c d && hasTimestamp d && isUnread u (toMessage d)
  then setReadBy (readByOf d ++ [uid u])%list d
  else d.

(** The write of a read receipt for a document. *)
Definition patchOf (u : User) (d : DocSnap) : Effect :=
  UpdateDoc "messages" (docId d) (PReadBy (readByOf d ++ [uid u])%list).

(** The last [readBy] value that a list of writes stores under an id. *)
Fixpoint lastWrite (i : string) (es : list Effect) : option (list string) :=
  match es with
  | [] => None
  | e :: es' =>
      match lastWrite i es' with
      | Some rb => Some rb
      | None =>
          match e with
          | UpdateDoc c j (PReadBy rb) =>
              if (c =? "messages")%string && (j =? i)%string
              then Some rb else None
          | _ => None
          end
      end
  end.

Definition written (es : list Effect) (d : DocSnap) : DocSnap :=
  match lastWrite (docId d) es with
  | Some rb => setReadBy rb d
  | None => d
  end.

End ChatScreen.

(* ================================================================== *)
(** * Employee dashboard *)
(* ================================================================== *)

Module Dashboard.

(** A [Date] object: an instant in milliseconds, or an invalid date. *)
Inductive Date : Type :=
| ValidDate (ms : Z)
| InvalidDate.

(** The [createdAt] field of an SOS request when it is truthy: a
    backend timestamp with its [toDate()], or any other value [v] with
    the date that [new Date(v)] builds. *)
Inductive CreatedAt : Type :=
| TimestampValue (toDate : Z)
| OtherValue (asDate : Date).

Record SOSRequest : Type := mkSOS {
  id : string;
  createdAt : option CreatedAt;
  emergencyType : option string;
  urgency : option string;
  status : option string
}.

Section LocalTime.

(** The engine's conversion of an instant to the calendar fields of
    the device's time zone: (year, month, day of the month). *)
Variable localFields : Z -> Z * Z * Z.

(** The getters answer [NaN] on an invalid date. *)
Definition getFullYear (d : Date) : option Z :=
  match d with
  | ValidDate ms => Some (fst (fst (localFields ms)))
  | InvalidDate => None
  end.

Definition getMonth (d : Date) : option Z :=
  match d with
  | ValidDate ms => Some (snd (fst (localFields ms)))
  | InvalidDate => None
  end.

Definition getDate (d : Date) : option Z :=
  match d with
  | ValidDate ms => Some (snd (localFields ms))
  | InvalidDate => None
  end.

(** [a === b] on numbers: [NaN] equals nothing. *)
Definition strictEq (a b : option Z) : bool :=
  match a, b with
  | Some x, Some y => x =? y
  | _, _ => false
  end.

(** [isToday(date)], with [now] the reading of [new Date()]. *)
Definition isToday (now : Z) (date : Date) : bool :=
  strictEq (getFullYear date) (getFullYear (ValidDate now))
  && strictEq (getMonth date) (getMonth (ValidDate now))
  && strictEq (getDate date) (getDate (ValidDate now)).

Definition dateOf (c : CreatedAt) : Date :=
  match c with
  | TimestampValue ms => ValidDate ms
  | OtherValue d => d
  end.

(** [sosRequests.filter(alert => alert.createdAt && isToday(...))].
    Every call of [isToday] reads the clock again: [clock k] is the
    [k]-th reading taken during the render, and a request without
    [createdAt] takes none. *)
Fixpoint todaysAlertsFrom (clock : nat -> Z) (k : nat)
    (sosRequests : list SOSRequest) : list SOSRequest :=
  match sosRequests with
  | [] => []
  | alert :: rest =>
      match createdAt alert with
      | None => todaysAlertsFrom clock k rest
      | Some c =>
          if isToday (clock k) (dateOf c)
          then alert :: todaysAlertsFrom clock (S k) rest
          else todaysAlertsFrom clock (S k) rest
      end
  end.

Definition todaysAlerts (clock : nat -> Z)
    (sosRequests : list SOSRequest) : list SOSRequest :=
  todaysAlertsFrom clock 0 sosRequests.

(** The calendar day of an instant, and the test the list is meant
    to implement, read off the stored value: the request has a
    [createdAt], a timestamp or a value that gives a valid date, whose
    instant falls on that day. *)
Definition sameDay (a b : Z) : bool :=
  let '(y1, m1, d1) := localFields a in
  let '(y2, m2, d2) := localFields b in
  (y1 =? y2) && (m1 =? m2) && (d1 =? d2).

Definition createdOn (today : Z) (alert : SOSRequest) : bool :=
  match createdAt alert with
  | Some (TimestampValue ms) => sameDay ms today
  | Some (OtherValue (ValidDate ms)) => sameDay ms today
  | Some (OtherValue InvalidDate) => false
  | None => false
  end.

(** The section shows the first three alerts and counts them all. *)
Definition shownAlerts (clock : nat -> Z)
    (sosRequests : list SOSRequest) : list SOSRequest :=
  firstn 3 (todaysAlerts clock sosRequests).

End LocalTime.

End Dashboard.

(* ================================================================== *)
(** * Profile screen *)
(* ================================================================== *)

Module Profile.

(** The part of the screen's state the handlers touch. *)
Record Screen : Type := mkScreen {
  user : option string;              (* uid of the signed-in user *)
  notifications : bool;
  blockedUsers : list string;
  modal : option string
}.

(** The fields of [users/<uid>] the handlers write. *)
Record UserDoc : Type := mkUserDoc {
  r_notifications : option bool;
  r_blockedUsers : option (list string)
}.

(** The world a handler runs in: the screen, the remote document,
    whether the backend rejects writes, and the effects so far. *)
Record World : Type := mkWorld {
  screen : Screen;
  remote : UserDoc;
  writeFails : bool;
  log : list Effect
}.

(** ** A small state monad for the handlers *)

Definition M (A : Type) : Type := World -> A * World.

Definition ret {A : Type} (a : A) : M A := fun w => (a, w).

Definition bind {A B : Type} (m : M A) (k : A -> M B) : M B :=
  fun w => let (a, w') := m w in k a w'.

Declare Scope handler_scope.
Delimit Scope handler_scope with handler.
Notation "x <- m ;; k" := (bind m (fun x => k))
  (at level 61, m at next level, right associativity) : handler_scope.
Notation "m ;; k" := (bind m (fun _ => k))
  (at level 61, right associativity) : handler_scope.
Local Open Scope handler_scope.

Definition exec {A : Type} (m : M A) (w : World) : World := snd (m w).

Definition gets {A : Type} (f : Screen -> A) : M A :=
  fun w => (f (screen w), w).

Definition modifyScreen (f : Screen -> Screen) : M unit :=
  fun w => (tt, mkWorld (f (screen w)) (remote w) (writeFails w) (log w)).

Definition emit (e : Effect) : M unit :=
  fun w => (tt, mkWorld (screen w) (remote w) (writeFails w)
                        (log w ++ [e])%list).

Definition setNotifications (v : bool) : M unit :=
  modifyScreen (fun s => mkScreen (user s) v (blockedUsers s) (modal s)).

Definition setBlockedUsers (l : list string) : M unit :=
  modifyScreen (fun s => mkScreen (user s) (notifications s) l (modal s)).

Definition setModal (m : option string) : M unit :=
  modifyScreen (fun s => mkScreen (user s) (notifications s) (blockedUsers s) m).

Definition alert (title message : string) : M unit :=
  emit (AlertE title message).

Definition consoleError (message : string) : M unit :=
  emit (ConsoleError message).

Definition applyPatch (p : Patch) (d : UserDoc) : UserDoc :=
  match p with
  | PNotifications v => mkUserDoc (Some v) (r_blockedUsers d)
  | PBlockedUsers l => mkUserDoc (r_notifications d) (Some l)
  | PReadBy _ => d
  end.

(** [await updateDoc(doc(db, "users", uid), p)] inside [try]: [true]
    when the promise resolves, [false] when it rejects and control
    goes to the [catch] block. *)
Definition updateDoc (uid : string) (p : Patch) : M bool :=
  fun w =>
    if writeFails w
    then (false, mkWorld (screen w) (remote w) (writeFails w)
                         (log w ++ [UpdateDoc "users" uid p])%list)
    else (true, mkWorld (screen w) (applyPatch p (remote w)) (writeFails w)
                        (log w ++ [UpdateDoc "users" uid p])%list).

(** ** Notifications *)

Definition handleToggleNotifications (value : bool) : M unit :=
  setNotifications value ;;
  u <- gets user ;;
  match u with
  | Some uid =>
      ok <- updateDoc uid (PNotifications value) ;;
      if ok then ret tt
      else
        consoleError "Error updating notifications:" ;;
        setNotifications (negb value) ;;
        alert "Error" "Failed to update notification settings."
  | None => ret tt
  end.

(** The notifications [Switch]: it shows [value={notifications}] and
    hands the opposite value to [onValueChange={handleToggleNotifications}]
    when it is pressed; the handler has no other caller. *)
Definition pressSwitch : M unit :=
  shown <- gets notifications ;;
  handleToggleNotifications (negb shown).

(** ** Blocked users *)

(** [\s] on a code unit below 256. *)
Definition isSpace (c : ascii) : bool :=
  let n := nat_of_ascii c in
  ((9 <=? n) && (n <=? 13) || (n =? 32) || (n =? 160))%nat.

(** The character class [[^\s@]]. *)
Definition notSpaceAt (c : ascii) : bool :=
  negb (isSpace c) && negb (c =? "@")%char.

(** Items of an anchored pattern: a literal, or one or more characters
    of a class. *)
Inductive Item : Type :=
| Lit (c : ascii)
| Plus (cls : ascii -> bool).

(** [items] matches the whole of [s]. *)
Fixpoint matches (items : list Item) (s : string) {struct s} : bool :=
  match items, s with
  | [], EmptyString => true
  | [], String _ _ => false
  | _ :: _, EmptyString => false
  | Lit c :: rest, String a s' => (a =? c)%char && matches rest s'
  | Plus cls :: rest, String a s' =>
      cls a && (matches rest s' || matches (Plus cls :: rest) s')
  end.

(** [/^[^\s@]+@[^\s@]+\.[^\s@]+$/] *)
Definition emailRegex : list Item :=
  [Plus notSpaceAt; Lit "@"; Plus notSpaceAt; Lit "."; Plus notSpaceAt].

Definition emailRegex_test (email : string) : bool :=
  matches emailRegex email.

(** The callback of the "Block User" entry; [blockedUsers] is the list
    the closure captured when the entry was pressed. *)
Definition blockUserCallback (blockedUsers : list string) (email : string)
    : M unit :=
  setModal None ;;
  if (email =? "")%string then ret tt
  else if negb (emailRegex_test email)
  then alert "Invalid Email" "Please enter a valid email address."
  else if JS.includes blockedUsers email
  then alert "Already Blocked" "This user is already blocked."
  else
    let updated := (blockedUsers ++ [email])%list in
    setBlockedUsers updated ;;
    u <- gets user ;;
    match u with
    | Some uid =>
        ok <- updateDoc uid (PBlockedUsers updated) ;;
        if ok then alert "Blocked" (email ++ " has been blocked.")%string
        else
          consoleError "Error blocking user:" ;;
          setBlockedUsers blockedUsers ;;
          alert "Error" "Failed to block user."
    | None => ret tt
    end.

(** The callback of the "Unblock User" entry. *)
Definition unblockUserCallback (blockedUsers : list string) (email : string)
    : M unit :=
  setModal None ;;
  if (email =? "")%string then ret tt
  else if negb (JS.includes blockedUsers email)
  then alert "Not Blocked" "This user is not blocked."
  else
    let updated := filter (fun u => negb (u =? email)%string) blockedUsers in
    setBlockedUsers updated ;;
    u <- gets user ;;
    match u with
    | Some uid =>
        ok <- updateDoc uid (PBlockedUsers updated) ;;
        if ok then alert "Unblocked" (email ++ " has been unblocked.")%string
        else
          consoleError "Error unblocking user:" ;;
          setBlockedUsers blockedUsers ;;
          alert "Error" "Failed to unblock user."
    | None => ret tt
    end.

Inductive Choice : Type := Cancel | BlockUser | UnblockUser.

(** [handleManageBlocked]: the menu is shown, the chosen entry opens
    its modal with a callback closed over the current list, and the
    modal hands the text it collected to that callback. *)
Definition handleManageBlocked (choice : Choice) (email : string) : M unit :=
  alert "Blocked Users" "What do you want to do?" ;;
  captured <- gets blockedUsers ;;
  match choice with
  | Cancel => ret tt
  | BlockUser =>
      setModal (Some "blockUser") ;; blockUserCallback captured email
  | UnblockUser =>
      setModal (Some "unblockUser") ;; unblockUserCallback captured email
  end.

(** The operations on the blocked list, as a user issues them. *)
Inductive Op : Type :=
| Block (email : string)
| Unblock (email : string).

Definition runOp (o : Op) : M unit :=
  match o with
  | Block e => handleManageBlocked BlockUser e
  | Unblock e => handleManageBlocked UnblockUser e
  end.

(** A run of operations issued one after the other, each with the fate
    of the write it may start: the write of an operation is settled
    before the next operation begins. *)
Definition setWriteFails (b : bool) (w : World) : World :=
  mkWorld (screen w) (remote w) b (log w).

Fixpoint runOps (ops : list (Op * bool)) (w : World) : World :=
  match ops with
  | [] => w
  | (o, fails) :: rest => runOps rest (exec (runOp o) (setWriteFails fails w))
  end.

(** The effects a handler added to the log. *)
Definition newEffects (w w' : World) : list Effect :=
  skipn (List.length (log w)) (log w').

End Profile.

(* ================================================================== *)
(** * Renderings used to state the formatting properties *)
(* ================================================================== *)

(** The character of a decimal digit. *)
Definition digitChar (d : Z) : ascii := ascii_of_nat (48 + Z.to_nat d).

(** [n] tenths written with one digit after the point. *)
Definition oneDecimal (n : Z) : string :=
  (JS.showZ (n / 10) ++ "." ++ String (digitChar (n mod 10)) "")%string.

(** A number below 100 written with two digits. *)
Definition twoDigits (r : Z) : string :=
  String (digitChar (r / 10)) (String (digitChar (r mod 10)) "").

(** [n / 10] is the multiple of a tenth nearest to [b / k], the larger
    one when [b / k] lies half way between two of them. *)
Definition nearestTenth (b k n : Z) : Prop :=
  2 * k * n - k <= 20 * b < 2 * k * n + k.

(* ================================================================== *)
(** * Sample data *)
(* ================================================================== *)

Module Samples.

Import ChatScreen.

Definition message (i sender c : string) (ts : Z) (rb : list string)
    : DocSnap :=
  mkDoc i (mkData (Some sender) (Some sender) None None (Some c)
                  (Some "hello") None (Some ts) (Some rb) None).

Definition pune : list DocSnap :=
  [ message "m1" "alice" "Pune" 300 ["alice"];
    message "m2" "bob" "Pune" 100 ["bob"];
    message "m3" "carol" "Delhi" 200 ["carol"];
    message "m4" "bob" "Pune" 200 ["bob"; "alice"] ].

Definition employee : UserData :=
  mkUserData None (Some "employee") (Some "Alice") None None (Some "Pune").

Definition citizen : UserData :=
  mkUserData None (Some "user") (Some "Dan") None None (Some "Pune").

Definition alice : User := spreadUser "alice" employee.

Definition signedIn : State := setUser alice initialState.

(** Calendar fields at UTC for instants of January 1970. *)
Definition january1970 (ms : Z) : Z * Z * Z :=
  (1970, 0, 1 + ms / 86400000).

Definition sos (i : string) (c : option Dashboard.CreatedAt)
    : Dashboard.SOSRequest :=
  Dashboard.mkSOS i c (Some "Fire") (Some "High") None.

Definition requests : list Dashboard.SOSRequest :=
  [ sos "s1" (Some (Dashboard.TimestampValue 90000000));
    sos "s2" None;
    sos "s3" (Some (Dashboard.TimestampValue 1000));
    sos "s4" (Some (Dashboard.OtherValue Dashboard.InvalidDate));
    sos "s5" (Some (Dashboard.OtherValue (Dashboard.ValidDate 100000000))) ].

(** A signed-in profile screen whose backend rejects writes. *)
Definition offline : Profile.World :=
  Profile.mkWorld (Profile.mkScreen (Some "u1") true ["a@b.co"] None)
                  (Profile.mkUserDoc (Some true) (Some ["a@b.co"])) true [].

(** A signed-in profile screen with an empty list and a working backend. *)
Definition online : Profile.World :=
  Profile.mkWorld (Profile.mkScreen (Some "u1") true [] None)
                  (Profile.mkUserDoc (Some true) (Some [])) false [].

End Samples.

(* ================================================================== *)
(** * Sending messages from the chat screen *)
(* ================================================================== *)

Module ChatSend.

Import ChatScreen.

(** [String.prototype.trim]: white space and line terminators are the
    characters of [\s]. *)
Fixpoint trimStart (s : string) : string :=
  match s with
  | EmptyString => EmptyString
  | String c s' => if Profile.isSpace c then trimStart s' else s
  end.

Fixpoint trimEnd (s : string) : string :=
  match s with
  | EmptyString => EmptyString
  | String c s' =>
      let r := trimEnd s' in
      if Profile.isSpace c && (r =? "")%string then EmptyString
      else String c r
  end.

Definition trim (s : string) : string := trimEnd (trimStart s).

(** A text of white space only. *)
Definition blank (s : string) : Prop :=
  Forall (fun ch => Profile.isSpace ch = true) (list_ascii_of_string s).

(** Calls into the platform made by the send handlers. *)
Inductive Call : Type :=
| Fetch (uri : string)                        (* fetch(uri) *)
| UploadBytes (path : string)                 (* uploadBytes(ref(storage, path), blob) *)
| CreateSound (uri : string)                  (* Audio.Sound.createAsync({ uri }) *)
| AddDoc (coll : string) (d : DocumentData)   (* addDoc(collection(db, coll), d) *)
| ShowAlert (title message : string).         (* Alert.alert(title, message) *)

(** The record every send handler passes to [addDoc].  Its [timestamp]
    is [serverTimestamp()], a placeholder that the backend replaces when
    it creates the document; the record itself carries no instant. *)
Definition outgoing (u : User) (c content : string) (ty : MessageType)
    (md : option Metadata) : DocumentData :=
  let p := profile u in
  mkData (Some (uid u))
         (Some (JS.orElse (name p) (JS.orElse (fullName p) "")))
         (Some (JS.orElse (email p) ""))
         (Some (JS.orElse (ud_city p) ""))
         (Some c) (Some content) (Some ty) None (Some [uid u]) md.

(** The backend's side of [addDoc]: the document gets an id and the
    server's time, and joins the collection. *)
Definition created (newId : string) (serverTime : Z) (d : DocumentData)
    : DocSnap :=
  mkDoc newId
        (mkData (d_senderId d) (d_senderName d) (d_senderEmail d)
                (d_senderCity d) (d_city d) (d_content d) (d_type d)
                (Some serverTime) (d_readBy d) (d_metadata d)).

Definition addDoc (newId : string) (serverTime : Z) (d : DocumentData)
    (coll : list DocSnap) : list DocSnap :=
  (coll ++ [created newId serverTime d])%list.

(** [handleSend(text)]; [addOk] tells whether [addDoc] resolves. *)
Definition handleSend (text : string) (cityParam : option string)
    (addOk : bool) (st : State) : list Call :=
  match user st, cityParam with
  | Some u, Some c =>
      if (trim text =? "")%string || (c =? "")%string then []
      else AddDoc "messages" (outgoing u c text ChatScreen.text None)
           :: (if addOk then []
               else [ShowAlert "Error" "Failed to send message"])
  | _, _ => []
  end.

(** ** Media *)

Inductive MediaType : Type := MImage | MVideo | MAudio | MFile.

(** The string of a media type. *)
Definition mediaString (t : MediaType) : string :=
  match t with
  | MImage => "image"
  | MVideo => "video"
  | MAudio => "audio"
  | MFile => "file"
  end.

(** [media.type === 'file' ? 'document' : media.type] *)
Definition storedType (t : MediaType) : MessageType :=
  match t with
  | MImage => image
  | MVideo => video
  | MAudio => audio
  | MFile => document
  end.

Record Media : Type := mkMedia {
  m_uri : string;
  m_type : MediaType;
  m_name : option string
}.

(** How the awaited calls of an upload end: each flag tells whether the
    promise resolves, [downloadURL] is what [getDownloadURL] resolves to
    ([None] when it rejects). *)
Record UploadIO : Type := mkIO {
  fetchOk : bool;
  blobOk : bool;
  uploadOk : bool;
  downloadURL : option string;
  soundOk : bool;
  durationMillis : option Z;
  addOk : bool
}.

(** The upload reaches the point where the message is written. *)
Definition uploaded (io : UploadIO) : bool :=
  fetchOk io && blobOk io && uploadOk io
  && match downloadURL io with Some _ => true | None => false end.

(** The alerts among the calls of a handler. *)
Definition alertsOf (calls : list Call) : list (string * string) :=
  flat_map (fun x => match x with
                     | ShowAlert t m => [(t, m)]
                     | _ => []
                     end) calls.

(** The documents a handler writes. *)
Definition docsOf (calls : list Call) : list (string * DocumentData) :=
  flat_map (fun x => match x with
                     | AddDoc coll d => [(coll, d)]
                     | _ => []
                     end) calls.

(** [handleSendMedia(media)]; [now] is the reading of [Date.now()]. *)
Definition handleSendMedia (media : Media) (cityParam : option string)
    (now : Z) (io : UploadIO) (st : State) : State * list Call :=
  match user st, cityParam with
  | Some u, Some c =>
      if (c =? "")%string then (st, [])
      else
        let failed := [ShowAlert "Error" "Failed to send media"] in
        let path := ("chat/" ++ mediaString (m_type media) ++ "s/"
                       ++ JS.showZ now ++ "_" ++ uid u)%string in
        let calls :=
          Fetch (m_uri media)
          :: (if negb (fetchOk io) then failed
              else if negb (blobOk io) then failed
              else
                UploadBytes path
                :: (if negb (uploadOk io) then failed
                    else
                      match downloadURL io with
                      | None => failed
                      | Some url =>
                          AddDoc "messages"
                            (outgoing u c
                               (mediaString (m_type media) ++ " shared")%string
                               (storedType (m_type media))
                               (Some (mkMetadata (Some url) None None None
                                                 (m_name media) None)))
                          :: (if addOk io then [] else failed)
                      end))
        in
        (setIsLoading false (setIsLoading true st), calls)
  | _, _ => (st, [])
  end.

(** [handleSendAudio(uri)]: the duration is [durationMillis / 1000]
    when the status carries a number, and 0 otherwise.  The source
    stores the double nearest to the quotient, the embedding the
    quotient itself; for a whole number of milliseconds below 2^53 the
    two have the same whole seconds, which is all [formatDuration]
    reads. *)
Definition audioDuration (io : UploadIO) : Q :=
  match durationMillis io with
  | Some ms => (inject_Z ms / 1000)%Q
  | None => 0%Q
  end.

Definition handleSendAudio (uri : string) (cityParam : option string)
    (now : Z) (io : UploadIO) (st : State) : State * list Call :=
  match user st, cityParam with
  | Some u, Some c =>
      if (c =? "")%string then (st, [])
      else
        let failed := [ShowAlert "Error" "Failed to send audio"] in
        let path := ("chat/audios/" ++ JS.showZ now ++ "_" ++ uid u)%string in
        let calls :=
          Fetch uri
          :: (if negb (fetchOk io) then failed
              else if negb (blobOk io) then failed
              else
                UploadBytes path
                :: (if negb (uploadOk io) then failed
                    else
                      match downloadURL io with
                      | None => failed
                      | Some url =>
                          CreateSound uri
                          :: (if negb (soundOk io) then failed
                              else
                                AddDoc "messages"
                                  (outgoing u c "audio shared" audio
                                     (Some (mkMetadata (Some url)
                                              (Some (audioDuration io))
                                              None None None None)))
                                :: (if addOk io then [] else failed))
                      end))
        in
        (setIsLoading false (setIsLoading true st), calls)
  | _, _ => (st, [])
  end.

(** [handleSendLocation()]: [granted] is the answer to the permission
    request, [coords] the position then read.  Nothing catches a failed
    [addDoc] here. *)
Definition handleSendLocation (granted : bool) (coords : Q * Q)
    (cityParam : option string) (st : State) : list Call :=
  if negb granted
  then [ShowAlert "Permission denied"
                  "Location permission is required to share your location"]
  else
    match user st, cityParam with
    | Some u, Some c =>
        if (c =? "")%string then []
        else [AddDoc "messages"
                (outgoing u c "Location shared" location
                   (Some (mkMetadata None None (Some (fst coords))
                                     (Some (snd coords)) None None)))]
    | _, _ => []
    end.

(** ** What a message row shows *)

(** [item.senderId === user?.uid] *)
Definition isCurrentUser (usr : option User) (item : Message) : bool :=
  match usr with
  | Some u => (senderId item =? uid u)%string
  | None => false
  end.

(** [item.readBy.length > 1] *)
Definition isRead (item : Message) : bool :=
  (1 <? List.length (readBy item))%nat.

(** The read receipt of a row: the icon's name, on the sender's own
    messages only. *)
Definition receipt (usr : option User) (item : Message) : option string :=
  if isCurrentUser usr item
  then Some (if isRead item then "checkmark-done" else "checkmark")
  else None.

(** The label of an audio row. *)
Definition audioLabel (message : Message) : string :=
  formatDuration (duration (metadata message)).

Section NumberText.

(** [`${x}`] for a number; how the engine prints a number that is not an
    integer is left open. *)
Variable showNumber : Q -> string.

(** [openLocation(lat, lng)] *)
Definition openLocation (lat lng : option Q) : list Call :=
  match lat, lng with
  | Some la, Some ln =>
      if Qeq_bool la 0 || Qeq_bool ln 0 then []
      else [ShowAlert "Location"
              ("Latitude: " ++ showNumber la ++ ", Longitude: "
                 ++ showNumber ln)%string]
  | _, _ => []
  end.

(** Pressing a location row. *)
Definition pressLocation (message : Message) : list Call :=
  openLocation (latitude (metadata message)) (longitude (metadata message)).

End NumberText.

(** The writes of read receipts that two clients compute from the same
    snapshot, reaching the collection one after the other. *)
Definition concurrentRounds (a b : User) (c : string) (coll : list DocSnap)
    : list DocSnap :=
  let snapshot := map toMessage (runQuery c coll) in
  applyUpdates (markMessagesAsRead (Some b) snapshot)
               (applyUpdates (markMessagesAsRead (Some a) snapshot) coll).

End ChatSend.

(* ================================================================== *)
(** * The dashboard's handled alerts and its link to the chat *)
(* ================================================================== *)

Module Responded.

Import Dashboard.

(** A document of the query for the employee's responded requests, with
    what [createdAt?.toMillis?.()] gives for it ([None] when the field or
    the method is missing). *)
Record Doc : Type := mkDoc {
  request : SOSRequest;
  toMillis : option Q
}.

(** [x.createdAt?.toMillis?.() ?? 0] *)
Definition millis (d : Doc) : Q :=
  match toMillis d with
  | Some m => m
  | None => 0
  end.

(** [docs.sort((a, b) => millis(b) - millis(a))]: the sort is stable, so
    the result is the one list in descending order of [millis] in which
    equal elements keep their order. *)
Fixpoint insertDesc (x : Doc) (l : list Doc) : list Doc :=
  match l with
  | [] => [x]
  | y :: l' =>
      if Qle_bool (millis y) (millis x) then x :: y :: l'
      else y :: insertDesc x l'
  end.

Definition sortDesc (l : list Doc) : list Doc := fold_right insertDesc [] l.

Record Handled : Type := mkHandled {
  handledCount : nat;
  recentActivity : list Doc;
  myResponded : list Doc
}.

(** The snapshot listener of the responded requests. *)
Definition onSnapshot (docs : list Doc) : Handled :=
  let data := sortDesc docs in
  mkHandled (List.length docs) (firstn 5 data) data.

(** The order the list is meant to have, read off the documents: [a]
    was created no earlier than [b], a document without [toMillis()]
    counting as created at 0. *)
Definition newerFirst (a b : Doc) : Prop :=
  match toMillis a, toMillis b with
  | Some x, Some y => (y <= x)%Q
  | Some x, None => (0 <= x)%Q
  | None, Some y => (y <= 0)%Q
  | None, None => True
  end.

(** The document was created at [k] milliseconds, with the same
    reading of a missing [toMillis()]. *)
Definition createdAtMillis (k : Q) (d : Doc) : bool :=
  match toMillis d with
  | Some m => Qeq_bool m k
  | None => Qeq_bool 0 k
  end.

(** [params: { city: employee?.city || "" }] of the Team Chat card. *)
Definition teamChatCity (employee : option ChatScreen.UserData) : string :=
  JS.orElse (match employee with
             | Some e => ChatScreen.ud_city e
             | None => None
             end) "".

End Responded.

(* ================================================================== *)
(** * Passwords and the profile form *)
(* ================================================================== *)

Module Account.

(** What a rejected authentication call carries. *)
Record AuthError : Type := mkError {
  code : option string;
  message : option string
}.

Inductive AuthCall : Type :=
| Reauthenticate (email oldPassword : string)
| UpdatePassword (newPassword : string)
| PasswordAlert (title text : string).

(** The text the profile screen shows for a failed change. *)
Definition errorMessage (e : AuthError) : string :=
  let coded c := match code e with
                 | Some x => (x =? c)%string
                 | None => false
                 end in
  if coded "auth/wrong-password" then "Current password is incorrect."
  else if coded "auth/weak-password" then "New password is too weak."
  else if coded "auth/requires-recent-login"
       then "Please log out and log back in, then try again."
       else ("Failed to change password. "
               ++ JS.orElse (message e) "Please try again.")%string.

(** [throw new Error("No email found")] *)
Definition noEmail : AuthError := mkError None (Some "No email found").

(** The profile screen's [handleChangePassword], once both modals have
    handed over their text: [email] is [user?.email], [reauth] and
    [update] are the errors the two authentication calls reject with
    ([None] when they resolve).  Both callbacks close their modal before
    anything else. *)
Definition handleChangePassword (email : option string)
    (reauth update : option AuthError) (oldPassword newPassword : string)
    : list AuthCall :=
  if (oldPassword =? "")%string then []
  else if (newPassword =? "")%string then []
  else if (String.length newPassword <? 6)%nat
  then [PasswordAlert "Error" "Password must be at least 6 characters long."]
  else
    match email with
    | Some em =>
        if (em =? "")%string
        then [PasswordAlert "Error" (errorMessage noEmail)]
        else
          Reauthenticate em oldPassword
          :: match reauth with
             | Some e => [PasswordAlert "Error" (errorMessage e)]
             | None =>
                 UpdatePassword newPassword
                 :: match update with
                    | Some e => [PasswordAlert "Error" (errorMessage e)]
                    | None => [PasswordAlert "Success"
                                 "Password changed successfully."]
                    end
             end
    | None => [PasswordAlert "Error" (errorMessage noEmail)]
    end.

(** The admin profile screen's [handleChangePassword]. *)
Definition adminErrorMessage (e : AuthError) : string :=
  JS.orElse (message e) "Failed to change password.".

Definition adminHandleChangePassword (email : option string)
    (reauth update : option AuthError) (oldPassword newPassword : string)
    : list AuthCall :=
  if (oldPassword =? "")%string then []
  else if (newPassword =? "")%string then []
  else
    match email with
    | Some em =>
        if (em =? "")%string
        then [PasswordAlert "Error" (adminErrorMessage noEmail)]
        else
          Reauthenticate em oldPassword
          :: match reauth with
             | Some e => [PasswordAlert "Error" (adminErrorMessage e)]
             | None =>
                 UpdatePassword newPassword
                 :: match update with
                    | Some e => [PasswordAlert "Error" (adminErrorMessage e)]
                    | None => [PasswordAlert "Success"
                                 "Password changed successfully."]
                    end
             end
    | None => [PasswordAlert "Error" (adminErrorMessage noEmail)]
    end.

(** The calls of a run, by kind. *)
Definition alerts (calls : list AuthCall) : list (string * string) :=
  flat_map (fun x => match x with
                     | PasswordAlert t m => [(t, m)]
                     | _ => []
                     end) calls.

(** ** The profile form *)

(** The editable state of the profile screen. *)
Record Form : Type := mkForm {
  name : string;
  contact : string;
  medical : string;
  notifications : bool;
  photo : option string;
  blockedUsers : list string
}.

(** The fields of [users/<uid>] the form is stored in; a missing field
    is [None], and so is a [photoUrl] of [null]. *)
Record ProfileDoc : Type := mkProfileDoc {
  d_fullName : option string;
  d_contact : option string;
  d_medical : option string;
  d_notifications : option bool;
  d_photoUrl : option string;
  d_blockedUsers : option (list string);
  d_updatedAt : option Z
}.

(** [saveProfile()]: [uid] is the signed-in user, [writeOk] the fate of
    [updateDoc], [now] the reading of [new Date()].  The result is the
    remote document and the alert shown. *)
Definition saveProfile (uid : option string) (writeOk : bool) (now : Z)
    (f : Form) (remote : ProfileDoc) : ProfileDoc * list (string * string) :=
  match uid with
  | None => (remote, [])
  | Some _ =>
      if writeOk
      then (mkProfileDoc (Some (name f)) (Some (contact f)) (Some (medical f))
                         (Some (notifications f)) (photo f)
                         (Some (blockedUsers f)) (Some now),
            [("Profile Updated",
              "Your profile has been updated successfully.")])
      else (remote,
            [("Error", "Failed to update profile. Please try again.")])
  end.

(** [x || null] on an optional string. *)
Definition orNull (s : option string) : option string :=
  match s with
  | Some v => if (v =? "")%string then None else Some v
  | None => None
  end.

(** The part of [fetchProfile()] that fills the form from the snapshot
    of the user's document ([None] when it does not exist). *)
Definition fetchProfile (docSnap : option ProfileDoc) (f : Form) : Form :=
  match docSnap with
  | None => f
  | Some data =>
      mkForm (JS.orElse (d_fullName data) "")
             (JS.orElse (d_contact data) "")
             (JS.orElse (d_medical data) "")
             (match d_notifications data with Some b => b | None => true end)
             (orNull (d_photoUrl data))
             (match d_blockedUsers data with Some l => l | None => [] end)
  end.

End Account.

(* ================================================================== *)
(** * Home screen *)
(* ================================================================== *)

Module Home.

(** [s.split('@')[0]]: the text before the first ['@']. *)
Fixpoint beforeAt (s : string) : string :=
  match s with
  | EmptyString => EmptyString
  | String c s' => if (c =? "@")%char then EmptyString else String c (beforeAt s')
  end.

(** The name in the header:
    [profile?.name ? profile.name : user?.email ? user.email.split('@')[0] : "User"]. *)
Definition displayName (profileName email : option string) : string :=
  match profileName with
  | Some n => if negb (n =? "")%string then n
              else match email with
                   | Some e => if negb (e =? "")%string then beforeAt e else "User"
                   | None => "User"
                   end
  | None => match email with
            | Some e => if negb (e =? "")%string then beforeAt e else "User"
            | None => "User"
            end
  end.

End Home.

(* ================================================================== *)
(** * The profile's two copies of the blocked list *)
(* ================================================================== *)

Module ProfileSync.

(** The local list and the stored one agree. *)
Definition inSync (w : Profile.World) : Prop :=
  Profile.r_blockedUsers (Profile.remote w)
  = Some (Profile.blockedUsers (Profile.screen w)).

End ProfileSync.

(* ================================================================== *)
(** * More sample data *)
(* ================================================================== *)

Module MoreSamples.

Import ChatScreen.

Definition dave : User :=
  spreadUser "dave"
    (mkUserData None (Some "employee") (Some "Dave") None None (Some "Pune")).

(** The record [handleSend] writes for Alice's text in Pune. *)
Definition hello : DocumentData :=
  ChatSend.outgoing Samples.alice "Pune" "hello there" text None.

Definition unreadByBoth : DocSnap :=
  Samples.message "m2" "bob" "Pune" 100 ["bob"].


Definition clip : ChatSend.Media :=
  ChatSend.mkMedia "file:///tmp/report.pdf" ChatSend.MFile (Some "report.pdf").

(** An upload in which every call resolves, of a recording of 75.5 s. *)
Definition fine : ChatSend.UploadIO :=
  ChatSend.mkIO true true true (Some "https://files.example/a1") true
                (Some 75500) true.

Definition voice : DocumentData :=
  ChatSend.outgoing Samples.alice "Pune" "audio shared" audio
    (Some (mkMetadata (Some "https://files.example/a1")
                      (Some (inject_Z 75500 / 1000)%Q)
                      None None None None)).

(** Numbers printed by their whole part. *)
Definition wholePart (x : Q) : string := JS.showZ (Qfloor x).

End MoreSamples.

(* ================================================================== *)
(** * Names of uploaded profile photos *)
(* ================================================================== *)

Module Photo.

(** [s.split(".")] *)
Fixpoint split (s : string) : list string :=
  match s with
  | EmptyString => [EmptyString]
  | String c s' =>
      match split s' with
      | seg :: rest =>
          if (c =? ".")%char then EmptyString :: seg :: rest
          else String c seg :: rest
      | [] => [String c EmptyString]
      end
  end.

(** [uri.split(".").pop() || "jpg"] *)
Definition fileExtension (uri : string) : string :=
  let popped := List.last (split uri) EmptyString in
  if (popped =? "")%string then "jpg" else popped.

(** The profile screen's [`profile_photos/${fileName}`], with
    [fileName] built from the uid, the reading of [Date.now()] and the
    extension. *)
Definition storagePath (uid uri : string) (timestamp : Z) : string :=
  ("profile_photos/" ++ "profile_" ++ uid ++ "_" ++ JS.showZ timestamp
     ++ "." ++ fileExtension uri)%string.

(** The admin screen's [`profile_photos/${user?.uid}.${ext}`]. *)
Definition adminStoragePath (uid uri : string) : string :=
  ("profile_photos/" ++ uid ++ "." ++ fileExtension uri)%string.

(** The text has no dot. *)
Definition dotless (s : string) : Prop :=
  ~ In "."%char (list_ascii_of_string s).

End Photo.

(* ================================================================== *)
(** * Properties *)
(* ================================================================== *)

(** ** Numbers and their renderings *)

Lemma Qfloor_unique (x : Q) (z : Z) :
  (inject_Z z <= x)%Q -> (x < inject_Z (z + 1))%Q -> Qfloor x = z.
Proof.
  intros Hlo Hhi.
  assert (H1 : z <= Qfloor x).
  { rewrite <- (Qfloor_Z z). now apply Qfloor_resp_le. }
  assert (H2 : Qfloor x < z + 1).
  { rewrite Zlt_Qlt. eapply Qle_lt_trans; [apply Qfloor_le | exact Hhi]. }
  lia.
Qed.

Lemma showZ_digit (d : Z) :
  0 <= d < 10 -> JS.showZ d = String (digitChar d) "".
Proof.
  intros H.
  assert (C : d = 0 \/ d = 1 \/ d = 2 \/ d = 3 \/ d = 4 \/ d = 5 \/ d = 6
              \/ d = 7 \/ d = 8 \/ d = 9) by lia.
  repeat (destruct C as [-> | C]; [reflexivity | ]); subst; reflexivity.
Qed.

Lemma toFixed1_nonneg (x : Q) :
  (0 <= x)%Q ->
  JS.toFixed1 x = oneDecimal (Qfloor (x * 10 + (1 # 2))%Q).
Proof.
  intros Hx. unfold JS.toFixed1, oneDecimal.
  destruct (Qlt_le_dec x 0) as [Hneg | _].
  - exfalso. lra.
  - cbn [append]. rewrite (showZ_digit (_ mod 10)); [reflexivity | ].
    apply Z.mod_pos_bound. lia.
Qed.

Lemma toFixed1_ratio (b k : Z) :
  0 <= b -> 0 < k ->
  exists n : Z,
    2 * k * n - k <= 20 * b < 2 * k * n + k
    /\ JS.toFixed1 (inject_Z b / inject_Z k) = oneDecimal n.
Proof.
  intros Hb Hk.
  set (x := (inject_Z b / inject_Z k)%Q).
  assert (Hkq : (0 < inject_Z k)%Q) by (change (inject_Z 0 < inject_Z k)%Q; rewrite <- Zlt_Qlt; exact Hk).
  assert (Hbq : (0 <= inject_Z b)%Q) by (change (inject_Z 0 <= inject_Z b)%Q; rewrite <- Zle_Qle; exact Hb).
  assert (Hx : (0 <= x)%Q).
  { unfold x. apply Qle_shift_div_l; [exact Hkq | lra]. }
  exists (Qfloor (x * 10 + (1 # 2))%Q). split.
  - pose proof (Qfloor_le (x * 10 + (1 # 2))%Q) as Hlo.
    pose proof (Qlt_floor (x * 10 + (1 # 2))%Q) as Hhi.
    set (n := Qfloor (x * 10 + (1 # 2))%Q) in *.
    assert (Hxk : (x * inject_Z k == inject_Z b)%Q).
    { unfold x. field. lra. }
    rewrite inject_Z_plus in Hhi. change (inject_Z 1) with 1%Q in Hhi.
    assert (A : (inject_Z (2 * k * n) <= inject_Z (20 * b + k))%Q).
    { rewrite inject_Z_plus, !inject_Z_mult.
      change (inject_Z 2) with 2%Q. change (inject_Z 20) with 20%Q.
      rewrite <- Hxk. nra. }
    assert (B : (inject_Z (20 * b) < inject_Z (2 * k * n + k))%Q).
    { rewrite inject_Z_plus, !inject_Z_mult.
      change (inject_Z 2) with 2%Q. change (inject_Z 20) with 20%Q.
      rewrite <- Hxk. nra. }
    rewrite <- Zle_Qle in A. rewrite <- Zlt_Qlt in B. lia.
  - apply toFixed1_nonneg. exact Hx.
Qed.


(** C6. For a positive byte count [b] (within the range where [toFixed]
    prints digits), [formatFileSize] returns the count followed by [" B"]
    below 1024, [b / 1024] rounded to the nearest tenth and written with
    one decimal followed by [" KB"] from 1024 and below 1048576, and
    [b / 1048576] written the same way followed by [" MB"] from there
    on; for an absent count it returns ["Unknown size"]. *)
Theorem formatFileSize_spec (b : Z) :
  0 < b -> b < 1048576 * 10 ^ 21 ->
  (b < 1024 ->
     ChatScreen.formatFileSize (Some b) = (JS.showZ b ++ " B")%string)
  /\ (1024 <= b < 1048576 ->
      exists n, nearestTenth b 1024 n
        /\ ChatScreen.formatFileSize (Some b) = (oneDecimal n ++ " KB")%string)
  /\ (1048576 <= b ->
      exists n, nearestTenth b 1048576 n
        /\ ChatScreen.formatFileSize (Some b) = (oneDecimal n ++ " MB")%string)
  /\ ChatScreen.formatFileSize None = "Unknown size".
Proof.
  intros Hpos _. unfold ChatScreen.formatFileSize.
  destruct (Z.eqb_spec b 0) as [E | _]; [lia | ].
  repeat split.
  - intros H. destruct (Z.ltb_spec b 1024); [reflexivity | lia].
  - intros [H1 H2].
    destruct (Z.ltb_spec b 1024); [lia | ].
    destruct (Z.ltb_spec b 1048576); [ | lia].
    destruct (toFixed1_ratio b 1024) as (n & Hn & E); [lia | lia | ].
    exists n. split; [exact Hn | ].
    change 1024%Q with (inject_Z 1024). now rewrite E.
  - intros H.
    destruct (Z.ltb_spec b 1024); [lia | ].
    destruct (Z.ltb_spec b 1048576); [lia | ].
    destruct (toFixed1_ratio b 1048576) as (n & Hn & E); [lia | lia | ].
    exists n. split; [exact Hn | ].
    change 1048576%Q with (inject_Z 1048576). now rewrite E.
Qed.

Lemma formatFileSize_spec_witness :
  0 < 1536 /\ 1536 < 1048576 * 10 ^ 21
  /\ ChatScreen.formatFileSize (Some 1536) = "1.5 KB".
Proof.
  split; [lia | ]. split; [lia | ].
  destruct (formatFileSize_spec 1536) as (_ & H & _); [lia | lia | ].
  destruct H as (n & Hn & E); [lia | ].
  unfold nearestTenth in Hn. assert (n = 15) by lia. subst n. exact E.
Defined.

(** C10. A byte count of exactly 0 is treated like an absent one:
    [formatFileSize] answers ["Unknown size"], not ["0 B"]. *)
Theorem formatFileSize_zero :
  ChatScreen.formatFileSize (Some 0) = ChatScreen.formatFileSize None
  /\ ChatScreen.formatFileSize (Some 0) = "Unknown size"
  /\ ChatScreen.formatFileSize (Some 0) <> "0 B".
Proof. repeat split. discriminate. Qed.

Lemma pad_twoDigits (r : Z) :
  0 <= r < 60 ->
  ((if (r <? 10)%Z then "0" else "") ++ JS.showZ r)%string = twoDigits r.
Proof.
  intros H. unfold twoDigits.
  destruct (Z.ltb_spec r 10).
  - rewrite showZ_digit by lia.
    rewrite Z.div_small, Z.mod_small by lia. reflexivity.
  - assert (C : exists q d, r = 10 * q + d /\ 1 <= q < 6 /\ 0 <= d < 10).
    { exists (r / 10), (r mod 10).
      pose proof (Z.div_mod r 10 ltac:(lia)).
      pose proof (Z.mod_pos_bound r 10 ltac:(lia)).
      assert (1 <= r / 10) by (apply Z.div_le_lower_bound; lia).
      assert (r / 10 < 6) by (apply Z.div_lt_upper_bound; lia).
      lia. }
    destruct C as (q & d & -> & Hq & Hd).
    replace ((10 * q + d) / 10) with q
      by (apply Z.div_unique with d; lia).
    replace ((10 * q + d) mod 10) with d
      by (apply Z.mod_unique with q; lia).
    assert (Cq : q = 1 \/ q = 2 \/ q = 3 \/ q = 4 \/ q = 5) by lia.
    assert (Cd : d = 0 \/ d = 1 \/ d = 2 \/ d = 3 \/ d = 4 \/ d = 5 \/ d = 6
              \/ d = 7 \/ d = 8 \/ d = 9) by lia.
    repeat (destruct Cq as [-> | Cq]; [ | ]); subst;
    repeat (destruct Cd as [-> | Cd]; [reflexivity | ]); subst; reflexivity.
Qed.

Lemma trunc_floor (x : Q) : (0 <= x)%Q -> JS.trunc x = Qfloor x.
Proof.
  intros H. destruct x as [p q]. unfold JS.trunc, Qfloor. cbn [Qnum Qden].
  unfold Qle in H. cbn in H.
  apply Z.quot_div_nonneg; lia.
Qed.

Lemma floor_sub_int (x : Q) (k : Z) :
  Qfloor (x - inject_Z k)%Q = Qfloor x - k.
Proof.
  pose proof (Qfloor_le x) as Hlo. pose proof (Qlt_floor x) as Hhi.
  apply Qfloor_unique.
  - unfold Z.sub. rewrite inject_Z_plus, inject_Z_opp. lra.
  - replace (Qfloor x - k + 1) with ((Qfloor x + 1) + - k) by lia.
    rewrite inject_Z_plus, inject_Z_opp. lra.
Qed.

Lemma floor_div_60 (s : Q) :
  (0 <= s)%Q -> Qfloor (s / 60)%Q = Qfloor s / 60.
Proof.
  intros Hs.
  pose proof (Qfloor_le s) as Hlo. pose proof (Qlt_floor s) as Hhi.
  set (t := Qfloor s) in *.
  pose proof (Z.div_mod t 60 ltac:(lia)) as Hdm.
  pose proof (Z.mod_pos_bound t 60 ltac:(lia)) as Hr.
  set (m := t / 60) in *. set (r := t mod 60) in *.
  assert (Ht : (inject_Z t == 60 * inject_Z m + inject_Z r)%Q).
  { rewrite Hdm, inject_Z_plus, inject_Z_mult. reflexivity. }
  assert (Hr0 : (0 <= inject_Z r)%Q)
    by (change (inject_Z 0 <= inject_Z r)%Q; rewrite <- Zle_Qle; lia).
  assert (Hr1 : (inject_Z r + 1 <= 60)%Q).
  { change (inject_Z r + inject_Z 1 <= inject_Z 60)%Q.
    rewrite <- inject_Z_plus, <- Zle_Qle. lia. }
  rewrite inject_Z_plus in Hhi. change (inject_Z 1) with 1%Q in Hhi.
  set (y := (s / 60)%Q).
  assert (Hy : (y * 60 == s)%Q) by (unfold y; field).
  apply Qfloor_unique.
  - lra.
  - rewrite inject_Z_plus. change (inject_Z 1) with 1%Q. lra.
Qed.

(** C7. For a positive duration [s] in seconds, below 2^53 where the
    doubles of the source and the rationals of the embedding agree,
    [formatDuration] returns the whole minutes, a colon and the
    remaining whole seconds written with two digits: the two numbers
    split the whole seconds of [s] as [60 * mins + secs] with [secs]
    below 60.  For an absent or zero duration it returns ["0:00"]. *)
Theorem formatDuration_spec (s : Q) :
  (0 < s)%Q -> (s < inject_Z (2 ^ 53))%Q ->
  (exists mins secs : Z,
      0 <= mins /\ 0 <= secs < 60
      /\ Qfloor s = 60 * mins + secs
      /\ ChatScreen.formatDuration (Some s)
         = (JS.showZ mins ++ ":" ++ twoDigits secs)%string)
  /\ ChatScreen.formatDuration None = "0:00"
  /\ ChatScreen.formatDuration (Some 0%Q) = "0:00".
Proof.
  intros Hpos _. split; [ | split; reflexivity].
  assert (Hs : (0 <= s)%Q) by lra.
  set (t := Qfloor s).
  assert (Ht : 0 <= t).
  { unfold t. rewrite <- (Qfloor_Z 0). apply Qfloor_resp_le. exact Hs. }
  pose proof (Z.div_mod t 60 ltac:(lia)) as Hdm.
  pose proof (Z.mod_pos_bound t 60 ltac:(lia)) as Hr.
  exists (t / 60), (t mod 60).
  split; [apply Z.div_pos; lia | ].
  split; [exact Hr | ]. split; [exact Hdm | ].
  unfold ChatScreen.formatDuration.
  destruct (Qeq_bool s 0) eqn:E.
  { apply Qeq_bool_eq in E. lra. }
  assert (Hm : JS.floor (s / 60) = t / 60) by (apply floor_div_60; exact Hs).
  assert (Hsec : JS.floor (JS.rem s 60) = t mod 60).
  { unfold JS.floor, JS.rem. rewrite trunc_floor.
    - rewrite floor_div_60 by exact Hs. fold t.
      assert (Eq : (s - 60 * inject_Z (t / 60) == s - inject_Z (60 * (t / 60)))%Q).
      { rewrite inject_Z_mult. reflexivity. }
      rewrite (Qfloor_comp _ _ Eq), floor_sub_int. fold t. lia.
    - apply Qle_shift_div_l; lra. }
  rewrite Hm, Hsec.
  rewrite <- pad_twoDigits by exact Hr. reflexivity.
Qed.

Lemma formatDuration_spec_witness :
  (0 < 1509 # 2)%Q /\ (1509 # 2 < inject_Z (2 ^ 53))%Q /\
  exists mins secs : Z,
    0 <= mins /\ 0 <= secs < 60
    /\ Qfloor (1509 # 2) = 60 * mins + secs
    /\ ChatScreen.formatDuration (Some (1509 # 2))
       = (JS.showZ mins ++ ":" ++ twoDigits secs)%string.
Proof.
  split; [reflexivity | ]. split; [reflexivity | ].
  apply (formatDuration_spec (1509 # 2)); reflexivity.
Defined.

Example formatFileSize_999 :
  ChatScreen.formatFileSize (Some 999) = "999 B".
Proof. vm_compute. reflexivity. Qed.

Example formatFileSize_1587 :
  ChatScreen.formatFileSize (Some 1587) = "1.5 KB".
Proof. vm_compute. reflexivity. Qed.

Example formatFileSize_1588 :
  ChatScreen.formatFileSize (Some 1588) = "1.6 KB".
Proof. vm_compute. reflexivity. Qed.

Example formatFileSize_5MB :
  ChatScreen.formatFileSize (Some 5767168) = "5.5 MB".
Proof. vm_compute. reflexivity. Qed.

Example formatDuration_754 :
  ChatScreen.formatDuration (Some (1509 # 2)) = "12:34".
Proof. vm_compute. reflexivity. Qed.

Example formatDuration_65 :
  ChatScreen.formatDuration (Some (651 # 10)) = "1:05".
Proof. vm_compute. reflexivity. Qed.

(** ** The dashboard's list of today's alerts *)

Section DashboardFacts.
Import Dashboard.
Variable localFields : Z -> Z * Z * Z.

Lemma isToday_sameDay (now today ms : Z) :
  sameDay localFields now today = true ->
  isToday localFields now (ValidDate ms) = sameDay localFields ms today.
Proof.
  unfold isToday, sameDay, strictEq, getFullYear, getMonth, getDate.
  destruct (localFields now) as [[y1 m1] d1].
  destruct (localFields today) as [[y2 m2] d2].
  destruct (localFields ms) as [[y3 m3] d3]. cbn [fst snd].
  intros H. apply andb_prop in H as [H Hd]. apply andb_prop in H as [Hy Hm].
  apply Z.eqb_eq in Hy, Hm, Hd. subst. reflexivity.
Qed.

Lemma isToday_createdOn (now today : Z) (alert : SOSRequest) (c : CreatedAt) :
  sameDay localFields now today = true ->
  createdAt alert = Some c ->
  isToday localFields now (dateOf c) = createdOn localFields today alert.
Proof.
  intros Hnow Hc. unfold createdOn. rewrite Hc.
  destruct c as [ms | [ms | ]]; cbn [dateOf].
  - now apply isToday_sameDay.
  - now apply isToday_sameDay.
  - reflexivity.
Qed.

Lemma todaysAlertsFrom_filter (clock : nat -> Z) (today : Z) :
  (forall k, sameDay localFields (clock k) today = true) ->
  forall sosRequests k,
    todaysAlertsFrom localFields clock k sosRequests
    = filter (createdOn localFields today) sosRequests.
Proof.
  intros Hclock. induction sosRequests as [ | alert rest IH]; intros k.
  - reflexivity.
  - cbn [todaysAlertsFrom filter].
    destruct (createdAt alert) as [c | ] eqn:Hc.
    + rewrite (isToday_createdOn (clock k) today alert c (Hclock k) Hc).
      destruct (createdOn localFields today alert); now rewrite IH.
    + unfold createdOn at 1. rewrite Hc. apply IH.
Qed.

Lemma sameDay_fields (a b : Z) :
  sameDay localFields a b = true <-> localFields a = localFields b.
Proof.
  unfold sameDay.
  destruct (localFields a) as [[y1 m1] d1].
  destruct (localFields b) as [[y2 m2] d2].
  rewrite !andb_true_iff, !Z.eqb_eq. split.
  - intros [[-> ->] ->]. reflexivity.
  - intros [= -> -> ->]. auto.
Qed.

(** C5. When the clock readings taken during the render all fall on
    the calendar day of [today], the list of today's alerts is the list
    of SOS requests filtered by the creation day: a request is in it
    exactly when it is among the requests and its [createdAt] is a
    timestamp, or another value that gives a valid date, of an instant
    with the year, month and day of [today].  A request without
    [createdAt], or with one that gives no valid date, is never in
    it. *)
Theorem todaysAlerts_spec (clock : nat -> Z) (today : Z)
    (sosRequests : list SOSRequest) :
  (forall k, sameDay localFields (clock k) today = true) ->
  todaysAlerts localFields clock sosRequests
  = filter (createdOn localFields today) sosRequests
  /\ (forall alert,
        In alert (todaysAlerts localFields clock sosRequests) <->
        In alert sosRequests
        /\ exists ms,
             (createdAt alert = Some (TimestampValue ms)
              \/ createdAt alert = Some (OtherValue (ValidDate ms)))
             /\ localFields ms = localFields today)
  /\ (forall alert,
        In alert (todaysAlerts localFields clock sosRequests) ->
        createdAt alert <> None
        /\ createdAt alert <> Some (OtherValue InvalidDate)).
Proof.
  intros Hclock.
  assert (E : todaysAlerts localFields clock sosRequests
              = filter (createdOn localFields today) sosRequests)
    by (apply todaysAlertsFrom_filter; exact Hclock).
  assert (Hon : forall alert,
             createdOn localFields today alert = true <->
             exists ms,
               (createdAt alert = Some (TimestampValue ms)
                \/ createdAt alert = Some (OtherValue (ValidDate ms)))
               /\ localFields ms = localFields today).
  { intros alert. unfold createdOn. split.
    - destruct (createdAt alert) as [[ms | [ms | ]] | ];
        try discriminate; intros H; apply sameDay_fields in H;
        exists ms; auto.
    - intros (ms & [-> | ->] & H); now apply sameDay_fields. }
  split; [exact E | ]. split.
  - intros alert. rewrite E, filter_In, Hon. reflexivity.
  - intros alert. rewrite E, filter_In, Hon.
    intros (_ & ms & [Hc | Hc] & _); rewrite Hc; split; discriminate.
Qed.
End DashboardFacts.

Lemma todaysAlerts_spec_witness :
  (forall k : nat,
      Dashboard.sameDay Samples.january1970 ((fun _ => 95000000) k) 95000000
      = true)
  /\ Dashboard.todaysAlerts Samples.january1970 (fun _ => 95000000)
                            Samples.requests
     = filter (Dashboard.createdOn Samples.january1970 95000000)
              Samples.requests.
Proof.
  assert (H : forall k : nat,
             Dashboard.sameDay Samples.january1970 ((fun _ => 95000000) k)
                               95000000 = true)
    by (intros k; reflexivity).
  split; [exact H | ].
  exact (proj1 (todaysAlerts_spec Samples.january1970 (fun _ => 95000000)
                                  95000000 Samples.requests H)).
Defined.

Example todaysAlerts_requests :
  map Dashboard.id
      (Dashboard.todaysAlerts Samples.january1970 (fun _ => 95000000)
                              Samples.requests)
  = ["s1"; "s5"].
Proof. vm_compute. reflexivity. Qed.

Lemma shownAlerts_prefix (localFields : Z -> Z * Z * Z) (clock : nat -> Z)
    (sosRequests : list Dashboard.SOSRequest) :
  Dashboard.shownAlerts localFields clock sosRequests
  = firstn 3 (Dashboard.todaysAlerts localFields clock sosRequests)
  /\ (List.length (Dashboard.shownAlerts localFields clock sosRequests)
      <= 3)%nat.
Proof.
  split; [reflexivity | ]. unfold Dashboard.shownAlerts.
  apply firstn_le_length.
Qed.

(** ** The role gate and the read receipts of the chat screen *)

Section ChatFacts.
Import ChatScreen.

Lemma denied_notEmployee (userData : UserData) :
  role userData <> Some "employee" -> notEmployee userData = true.
Proof.
  unfold notEmployee. destruct (role userData) as [r | ]; [ | reflexivity].
  intros H. destruct (String.eqb_spec r "employee") as [-> | _]; [ | reflexivity].
  now contradiction H.
Qed.

Lemma denied_step (authUid : string) (got : GetDoc) (st : State) :
  deniedProfile got ->
  exists effs,
    onAuthStateChanged (Some authUid) got st = (st, effs)
    /\ In RouterBack effs
    /\ (forall c w, ~ In (Subscribe c w) effs)
    /\ (forall userData, got = GetResolved (Some userData) ->
          In (AlertE "Access Denied" "Only employees can access this chat") effs).
Proof.
  intros H. destruct got as [ | [userData | ]]; cbn in H.
  - contradiction.
  - cbn. rewrite (denied_notEmployee userData H).
    eexists. split; [reflexivity | ].
    split; [cbn; auto | ]. split; [ | cbn; auto].
    intros c w [E | [E | []]]; discriminate.
  - cbn. eexists. split; [reflexivity | ].
    split; [cbn; auto | ]. split; [ | intros ? [=]].
    intros c w [E | []]; discriminate.
Qed.

Lemma runAuth_denied (events : list (string * GetDoc)) (st : State) :
  Forall (fun ev => deniedProfile (snd ev)) events ->
  fst (runAuth events st) = st.
Proof.
  induction 1 as [ | [authUid got] rest Hd _ IH]; [reflexivity | ].
  cbn [runAuth]. cbn [snd] in Hd.
  destruct (denied_step authUid got st Hd) as (effs & -> & _).
  destruct (runAuth rest st) as [st2 effs2]. exact IH.
Qed.

Lemma no_user_no_subscription (cityParam : option string) (st : State) :
  user st = None -> messagesEffect cityParam st = (st, []).
Proof.
  intros H. unfold messagesEffect. rewrite H. now destruct cityParam.
Qed.

(** C4. For an authenticated user whose profile document does not
    exist, or exists with a role other than ['employee'], the listener
    leaves the screen's state as it was, starts no subscription and
    navigates back (with the "Access Denied" alert when the document
    exists); after any run of
    such events on a fresh screen no user is set, so the subscription
    effect returns without subscribing for every city and collection. *)
Theorem role_gate_denies (authUid : string) (got : GetDoc) :
  deniedProfile got ->
  (forall st, exists effs,
      onAuthStateChanged (Some authUid) got st = (st, effs)
      /\ In RouterBack effs
      /\ (forall c w, ~ In (Subscribe c w) effs)
      /\ (forall userData, got = GetResolved (Some userData) ->
            In (AlertE "Access Denied" "Only employees can access this chat") effs))
  /\ (forall events cityParam coll,
        Forall (fun ev => deniedProfile (snd ev)) events ->
        let st := fst (runAuth ((authUid, got) :: events) initialState) in
        user st = None
        /\ messagesEffect cityParam st = (st, [])
        /\ subscribeAndReceive cityParam coll st = (st, [])).
Proof.
  intros Hd. split.
  - intros st. now apply denied_step.
  - intros events cityParam coll Hev st.
    assert (E : st = initialState).
    { unfold st. apply runAuth_denied. constructor; assumption. }
    rewrite E. split; [reflexivity | ].
    split; [now apply no_user_no_subscription | ].
    unfold subscribeAndReceive.
    now rewrite no_user_no_subscription.
Qed.

Lemma includes_In (l : list string) (x : string) :
  JS.includes l x = true <-> In x l.
Proof.
  induction l as [ | y l IH]; cbn.
  - split; [discriminate | tauto].
  - destruct (String.eqb_spec y x) as [-> | Hne].
    + split; auto.
    + rewrite IH. split; [auto | intros [E | H]; [contradiction | exact H]].
Qed.

Lemma isUnread_iff (u : User) (msg : Message) :
  isUnread u msg = true <->
  senderId msg <> uid u /\ ~ In (uid u) (readBy msg).
Proof.
  unfold isUnread. rewrite andb_true_iff, !negb_true_iff.
  rewrite <- includes_In.
  destruct (String.eqb_spec (senderId msg) (uid u));
    destruct (JS.includes (readBy msg) (uid u)); intuition congruence.
Qed.

Lemma markMessagesAsRead_map (u : User) (msgs : list Message) :
  markMessagesAsRead (Some u) msgs
  = map (fun message =>
           UpdateDoc "messages" (id message)
                     (PReadBy (readBy message ++ [uid u])%list))
        (filter (isUnread u) msgs).
Proof.
  unfold markMessagesAsRead.
  destruct (filter (isUnread u) msgs); reflexivity.
Qed.

Lemma toMessage_id (l : list DocSnap) :
  map id (map toMessage l) = map docId l.
Proof. rewrite map_map. reflexivity. Qed.

Lemma patchedIds_mark (u : User) (msgs : list Message) :
  patchedIds (markMessagesAsRead (Some u) msgs)
  = map id (filter (isUnread u) msgs).
Proof.
  rewrite markMessagesAsRead_map. unfold patchedIds.
  induction (filter (isUnread u) msgs) as [ | m l IH]; cbn; congruence.
Qed.

Lemma unread_ids_distinct (u : User) (msgs : list Message) :
  NoDup (map id msgs) -> NoDup (map id (filter (isUnread u) msgs)).
Proof.
  induction msgs as [ | m msgs IH]; cbn [map filter]; intros Hnd.
  - constructor.
  - apply NoDup_cons_iff in Hnd as [Hfresh Hrest].
    destruct (isUnread u m); [ | now apply IH].
    cbn [map]. constructor; [ | now apply IH].
    intros Hin. apply Hfresh.
    apply in_map_iff in Hin as (m' & Hid & Hm').
    apply filter_In in Hm' as [Hm' _].
    rewrite <- Hid. now apply in_map.
Qed.

Lemma NoDup_map_inj_on {A B : Type} (f : A -> B) (l : list A) (a b : A) :
  NoDup (map f l) -> In a l -> In b l -> f a = f b -> a = b.
Proof.
  induction l as [ | x l IH]; cbn; [tauto | ].
  intros H. inversion H as [ | ? ? Hnin Hnd]; subst.
  intros [-> | Ha] [-> | Hb] E; auto.
  - exfalso. apply Hnin. rewrite E. now apply in_map.
  - exfalso. apply Hnin. rewrite <- E. now apply in_map.
Qed.

(** C2. Processing a snapshot (of documents with distinct ids) for the
    user [u] issues one [readBy] write per message whose sender is not
    [u] and whose [readBy] list lacks [u]'s uid, the written list being
    the old one with the uid appended; no message is written twice, and
    a message sent by [u] or already containing the uid is not written. *)
Theorem snapshot_patches_unread (snapshot : list DocSnap) (st : State) (u : User) :
  user st = Some u ->
  NoDup (map docId snapshot) ->
  let msgs := messages (fst (onSnapshot snapshot st)) in
  let effs := snd (onSnapshot snapshot st) in
  msgs = map toMessage snapshot
  /\ effs = map (fun message =>
                   UpdateDoc "messages" (id message)
                             (PReadBy (readBy message ++ [uid u])%list))
                (filter (isUnread u) msgs)
  /\ NoDup (patchedIds effs)
  /\ (forall msg, In msg msgs ->
        (In (id msg) (patchedIds effs) <->
         senderId msg <> uid u /\ ~ In (uid u) (readBy msg)))
  /\ (forall msg, In msg msgs ->
        senderId msg = uid u \/ In (uid u) (readBy msg) ->
        forall p, ~ In (UpdateDoc "messages" (id msg) p) effs).
Proof.
  intros Hu Hnd msgs effs.
  assert (Em : msgs = map toMessage snapshot) by reflexivity.
  assert (Ee : effs = markMessagesAsRead (Some u) msgs).
  { unfold effs, onSnapshot. cbn [snd]. rewrite Hu. reflexivity. }
  assert (Hids : NoDup (map id msgs)) by (rewrite Em, toMessage_id; exact Hnd).
  assert (Hpatched : forall msg, In msg msgs ->
             (In (id msg) (patchedIds effs) <-> isUnread u msg = true)).
  { intros msg Hin. rewrite Ee, patchedIds_mark, in_map_iff. split.
    - intros (m' & Hid & Hin'). apply filter_In in Hin' as [Hin' Hun].
      now rewrite <- (NoDup_map_inj_on id msgs m' msg Hids Hin' Hin Hid).
    - intros Hun. exists msg. split; [reflexivity | ].
      apply filter_In. auto. }
  split; [exact Em | ].
  split; [rewrite Ee; apply markMessagesAsRead_map | ].
  split; [rewrite Ee, patchedIds_mark; now apply unread_ids_distinct | ].
  split.
  - intros msg Hin. rewrite (Hpatched msg Hin). apply isUnread_iff.
  - intros msg Hin Hread p Hp.
    assert (Hid : In (id msg) (patchedIds effs)).
    { unfold patchedIds. apply in_flat_map.
      exists (UpdateDoc "messages" (id msg) p). split; [exact Hp | now left]. }
    apply (Hpatched msg Hin), isUnread_iff in Hid. tauto.
Qed.
End ChatFacts.

Ltac distinct_ids :=
  cbn; repeat (constructor; [cbn; intuition discriminate | ]); constructor.

Lemma role_gate_denies_witness :
  ChatScreen.deniedProfile (ChatScreen.GetResolved (Some Samples.citizen))
  /\ ChatScreen.user
       (fst (ChatScreen.runAuth
               [("dan", ChatScreen.GetResolved (Some Samples.citizen))]
               ChatScreen.initialState)) = None
  /\ ChatScreen.subscribeAndReceive (Some "Pune") Samples.pune
       (fst (ChatScreen.runAuth
               [("dan", ChatScreen.GetResolved (Some Samples.citizen))]
               ChatScreen.initialState))
     = (ChatScreen.initialState, []).
Proof.
  assert (H : ChatScreen.deniedProfile
                (ChatScreen.GetResolved (Some Samples.citizen)))
    by (cbn; discriminate).
  split; [exact H | ].
  destruct (proj2 (role_gate_denies "dan" _ H) [] (Some "Pune") Samples.pune
                  (Forall_nil _)) as (Hu & _ & Hs).
  split; [exact Hu | exact Hs].
Defined.

Example employee_is_admitted :
  ChatScreen.onAuthStateChanged (Some "alice")
    (ChatScreen.GetResolved (Some Samples.employee)) ChatScreen.initialState
  = (Samples.signedIn, []).
Proof. reflexivity. Qed.

Lemma snapshot_patches_unread_witness :
  ChatScreen.user Samples.signedIn = Some Samples.alice
  /\ NoDup (map ChatScreen.docId Samples.pune)
  /\ NoDup (ChatScreen.patchedIds
              (snd (ChatScreen.onSnapshot Samples.pune Samples.signedIn))).
Proof.
  assert (Hn : NoDup (map ChatScreen.docId Samples.pune)) by distinct_ids.
  split; [reflexivity | ]. split; [exact Hn | ].
  exact (proj1 (proj2 (proj2
           (snapshot_patches_unread Samples.pune Samples.signedIn
                                    Samples.alice eq_refl Hn)))).
Defined.

Example snapshot_patches_pune :
  snd (ChatScreen.onSnapshot Samples.pune Samples.signedIn)
  = [UpdateDoc "messages" "m2" (PReadBy ["bob"; "alice"]);
     UpdateDoc "messages" "m3" (PReadBy ["carol"; "alice"])].
Proof. reflexivity. Qed.

(** ** The message subscription *)

Section QueryFacts.
Import ChatScreen.

Lemma insertAsc_perm (d : DocSnap) (l : list DocSnap) :
  Permutation (insertAsc d l) (d :: l).
Proof.
  induction l as [ | e l IH]; cbn.
  - reflexivity.
  - destruct (before d e).
    + reflexivity.
    + rewrite IH. apply perm_swap.
Qed.



Lemma fold_insert_perm (l : list DocSnap) :
  Permutation (fold_right insertAsc [] l) l.
Proof.
  induction l as [ | d l IH]; cbn; [reflexivity | ].
  rewrite insertAsc_perm. now constructor.
Qed.


Lemma filter_filter {A : Type} (p q : A -> bool) (l : list A) :
  filter p (filter q l) = filter (fun x => q x && p x) l.
Proof.
  induction l as [ | a l IH]; cbn; [reflexivity | ].
  destruct (q a); cbn; [destruct (p a) | ]; now rewrite IH.
Qed.

(** The snapshot is a rearrangement of the documents of the selected
    city that carry a timestamp. *)
Lemma runQuery_perm (c : string) (coll : list DocSnap) :
  Permutation (runQuery c coll)
              (filter (fun d => whereCity c d && hasTimestamp d) coll).
Proof.
  unfold runQuery, orderByTimestampAsc.
  rewrite fold_insert_perm, filter_filter. reflexivity.
Qed.


Lemma runQuery_In (c : string) (coll : list DocSnap) (d : DocSnap) :
  In d (runQuery c coll) <->
  In d coll /\ whereCity c d = true /\ hasTimestamp d = true.
Proof.
  split.
  - intros H. apply (Permutation_in _ (runQuery_perm c coll)) in H.
    apply filter_In in H as [Hin Hc]. apply andb_prop in Hc. tauto.
  - intros (Hin & Hc & Ht).
    apply (Permutation_in _ (Permutation_sym (runQuery_perm c coll))).
    apply filter_In. rewrite Hc, Ht. auto.
Qed.

Lemma whereCity_city (c : string) (d : DocSnap) :
  c <> "" -> (whereCity c d = true <-> city (toMessage d) = c).
Proof.
  intros Hc. unfold whereCity, toMessage. cbn [city]. unfold JS.orElse.
  destruct (d_city (data d)) as [c' | ].
  - destruct (String.eqb_spec c' c) as [-> | Hne].
    + destruct (String.eqb_spec c ""); [contradiction | tauto].
    + destruct (String.eqb_spec c' ""); split; congruence.
  - split; [discriminate | congruence].
Qed.

Lemma subscribe_messages (c : string) (coll : list DocSnap) (st : State) (u : User) :
  c <> "" -> user st = Some u ->
  messages (fst (subscribeAndReceive (Some c) coll st))
  = map toMessage (runQuery c coll).
Proof.
  intros Hc Hu. unfold subscribeAndReceive, messagesEffect. rewrite Hu.
  destruct (String.eqb_spec c ""); [contradiction | ].
  reflexivity.
Qed.

Lemma datedIn_query (c : string) (d : DocSnap) :
  datedIn c d = whereCity c d && hasTimestamp d.
Proof.
  unfold datedIn, whereCity, hasTimestamp.
  destruct (d_city (data d)) as [c' | ]; [ | reflexivity].
  destruct (d_timestamp (data d)); [ | now rewrite andb_false_r].
  now rewrite andb_true_r.
Qed.




End QueryFacts.



Example runQuery_equal_timestamps :
  map ChatScreen.docId
      (ChatScreen.runQuery "Pune"
         [Samples.message "b" "bob" "Pune" 100 ["bob"];
          Samples.message "c" "bob" "Pune" 50 ["bob"];
          Samples.message "a" "bob" "Pune" 100 ["bob"]])
  = ["c"; "a"; "b"].
Proof. reflexivity. Qed.

Example message_list_pune :
  map ChatScreen.id
      (ChatScreen.messages
         (fst (ChatScreen.subscribeAndReceive (Some "Pune") Samples.pune
                                              Samples.signedIn)))
  = ["m2"; "m4"; "m1"].
Proof. reflexivity. Qed.

(** ** Rounds of read receipts against the collection *)

Section ReceiptFacts.
Import ChatScreen.

Lemma setReadBy_id rb d : docId (setReadBy rb d) = docId d.
Proof. reflexivity. Qed.

Lemma setReadBy_twice rb rb' d : setReadBy rb (setReadBy rb' d) = setReadBy rb d.
Proof. reflexivity. Qed.

Lemma applyUpdate_map (e : Effect) (coll : list DocSnap) :
  applyUpdate e coll = map (written [e]) coll.
Proof.
  unfold written. destruct e as [ | | | c j p | ]; cbn;
    try (symmetry; apply map_id).
  destruct p as [rb | | ]; try (symmetry; apply map_id).
  destruct (c =? "messages")%string; cbn.
  - apply map_ext. intros d. now destruct (j =? docId d)%string eqn:E;
      rewrite String.eqb_sym, E.
  - symmetry. apply map_id.
Qed.

Lemma written_id es d : docId (written es d) = docId d.
Proof. unfold written. now destruct (lastWrite (docId d) es). Qed.

Lemma written_cons e es d : written es (written [e] d) = written (e :: es) d.
Proof.
  unfold written at 1. rewrite written_id.
  unfold written. cbn [lastWrite].
  destruct (lastWrite (docId d) es) as [rb | ].
  - destruct e as [ | | | c j [rb' | | ] | ]; try reflexivity.
    destruct ((c =? "messages")%string && (j =? docId d)%string); reflexivity.
  - reflexivity.
Qed.

Lemma applyUpdates_map (es : list Effect) (coll : list DocSnap) :
  applyUpdates es coll = map (written es) coll.
Proof.
  unfold applyUpdates. revert coll.
  induction es as [ | e es IH]; intros coll; cbn [fold_left].
  - symmetry. unfold written. cbn. apply map_id.
  - rewrite IH, applyUpdate_map, map_map.
    apply map_ext. intros d. apply written_cons.
Qed.

Lemma written_again es d : written es (written es d) = written es d.
Proof.
  unfold written at 1. rewrite written_id. unfold written.
  now destruct (lastWrite (docId d) es).
Qed.

Lemma applyUpdates_again (es : list Effect) (coll : list DocSnap) :
  applyUpdates es (applyUpdates es coll) = applyUpdates es coll.
Proof.
  rewrite !applyUpdates_map, map_map.
  apply map_ext. intros d. apply written_again.
Qed.

Lemma filter_map_comm {A B : Type} (f : A -> B) (p : B -> bool) (l : list A) :
  filter p (map f l) = map f (filter (fun a => p (f a)) l).
Proof.
  induction l as [ | a l IH]; cbn; [reflexivity | ].
  destruct (p (f a)); cbn; now rewrite IH.
Qed.

Lemma mark_patches (u : User) (c : string) (coll : list DocSnap) :
  markMessagesAsRead (Some u) (map toMessage (runQuery c coll))
  = map (patchOf u)
        (filter (fun d => isUnread u (toMessage d)) (runQuery c coll)).
Proof.
  rewrite markMessagesAsRead_map, filter_map_comm, map_map. reflexivity.
Qed.

Lemma lastWrite_patches_none (u : User) (i : string) (T : list DocSnap) :
  (forall t, In t T -> docId t <> i) ->
  lastWrite i (map (patchOf u) T) = None.
Proof.
  induction T as [ | t T IH]; intros H; cbn; [reflexivity | ].
  rewrite IH by (intros; apply H; now right).
  destruct (String.eqb_spec (docId t) i) as [E | _]; [ | reflexivity].
  exfalso. apply (H t); [now left | exact E].
Qed.

Lemma lastWrite_patches_some (u : User) (d : DocSnap) (T : list DocSnap) :
  In d T ->
  (forall t, In t T -> docId t = docId d -> t = d) ->
  lastWrite (docId d) (map (patchOf u) T)
  = Some (readByOf d ++ [uid u])%list.
Proof.
  induction T as [ | t T IH]; intros Hin Huniq; [contradiction | ].
  cbn [map lastWrite].
  destruct (in_dec string_dec (docId d) (map docId T)) as [Hi | Hni].
  - apply in_map_iff in Hi as (t' & Ht' & Hin').
    assert (t' = d) by (apply Huniq; [now right | exact Ht']). subst t'.
    rewrite IH; [reflexivity | exact Hin' | ].
    intros t' Ht'' Heq. apply Huniq; [now right | exact Heq].
  - rewrite lastWrite_patches_none.
    + destruct Hin as [-> | Hin].
      * cbn. now rewrite String.eqb_refl.
      * exfalso. apply Hni. now apply in_map.
    + intros t' Hin' Heq. apply Hni. rewrite <- Heq. now apply in_map.
Qed.

Lemma markRound_map (u : User) (c : string) (coll : list DocSnap) :
  NoDup (map docId coll) ->
  markRound u c coll = map (markDoc u c) coll.
Proof.
  intros Hnd. unfold markRound.
  rewrite applyUpdates_map, mark_patches.
  apply map_ext_in. intros d Hd.
  set (T := filter (fun d => isUnread u (toMessage d)) (runQuery c coll)).
  assert (HT : forall t, In t T <->
               In t coll /\ whereCity c t = true /\ hasTimestamp t = true
               /\ isUnread u (toMessage t) = true).
  { intros t. unfold T. rewrite filter_In, runQuery_In. tauto. }
  unfold written, markDoc.
  destruct (whereCity c d && hasTimestamp d && isUnread u (toMessage d)) eqn:C.
  - apply andb_prop in C as [C Hu]. apply andb_prop in C as [Hc Ht].
    rewrite lastWrite_patches_some; [reflexivity | apply HT; auto | ].
    intros t Hin Heq. apply HT in Hin.
    apply (NoDup_map_inj_on docId coll t d Hnd); tauto.
  - rewrite lastWrite_patches_none; [reflexivity | ].
    intros t Hin Heq. apply HT in Hin as (Hin & Hc & Ht & Hu).
    assert (t = d) by (apply (NoDup_map_inj_on docId coll t d Hnd); auto).
    subst t. rewrite Hc, Ht, Hu in C. discriminate.
Qed.

Lemma isUnread_after (u : User) (d : DocSnap) :
  isUnread u (toMessage (setReadBy (readByOf d ++ [uid u])%list d)) = false.
Proof.
  unfold isUnread. cbn [toMessage readBy setReadBy data d_readBy].
  apply andb_false_intro2. apply negb_false_iff, includes_In.
  apply in_or_app. right. now left.
Qed.

Lemma markDoc_id u c d : docId (markDoc u c d) = docId d.
Proof. unfold markDoc. now destruct (_ && _). Qed.

Lemma markDoc_settled (u : User) (c : string) (d : DocSnap) :
  whereCity c (markDoc u c d) && hasTimestamp (markDoc u c d)
    && isUnread u (toMessage (markDoc u c d)) = false.
Proof.
  unfold markDoc.
  destruct (whereCity c d && hasTimestamp d && isUnread u (toMessage d)) eqn:C.
  - rewrite isUnread_after. apply andb_false_r.
  - exact C.
Qed.

Lemma markDoc_idem (u : User) (c : string) (d : DocSnap) :
  markDoc u c (markDoc u c d) = markDoc u c d.
Proof.
  unfold markDoc at 1. now rewrite markDoc_settled.
Qed.

Lemma markDoc_readBy (u : User) (c : string) (d : DocSnap) :
  readByOf (markDoc u c d) = readByOf d
  \/ (readByOf (markDoc u c d) = (readByOf d ++ [uid u])%list
      /\ ~ In (uid u) (readByOf d)).
Proof.
  unfold markDoc.
  destruct (whereCity c d && hasTimestamp d && isUnread u (toMessage d)) eqn:C.
  - right. split; [reflexivity | ].
    apply andb_prop in C as [_ Hu]. apply isUnread_iff in Hu. tauto.
  - now left.
Qed.

Lemma lastWrite_round (u : User) (c : string) (coll : list DocSnap)
    (d : DocSnap) :
  NoDup (map docId coll) -> In d coll ->
  lastWrite (docId d)
            (markMessagesAsRead (Some u) (map toMessage (runQuery c coll)))
  = if whereCity c d && hasTimestamp d && isUnread u (toMessage d)
    then Some (readByOf d ++ [uid u])%list
    else None.
Proof.
  intros Hnd Hd. rewrite mark_patches.
  set (T := filter (fun d => isUnread u (toMessage d)) (runQuery c coll)).
  assert (HT : forall t, In t T <->
               In t coll /\ whereCity c t = true /\ hasTimestamp t = true
               /\ isUnread u (toMessage t) = true).
  { intros t. unfold T. rewrite filter_In, runQuery_In. tauto. }
  destruct (whereCity c d && hasTimestamp d && isUnread u (toMessage d)) eqn:C.
  - apply andb_prop in C as [C Hu]. apply andb_prop in C as [Hc Ht].
    apply lastWrite_patches_some; [apply HT; auto | ].
    intros t Hin Heq. apply HT in Hin.
    apply (NoDup_map_inj_on docId coll t d Hnd); tauto.
  - apply lastWrite_patches_none.
    intros t Hin Heq. apply HT in Hin as (Hin & Hc & Ht & Hu).
    assert (t = d) by (apply (NoDup_map_inj_on docId coll t d Hnd); auto).
    subst t. rewrite Hc, Ht, Hu in C. discriminate.
Qed.

Lemma Forall2_map_self {A : Type} (R : A -> A -> Prop) (f : A -> A)
    (l : list A) :
  (forall a, In a l -> R a (f a)) -> Forall2 R l (map f l).
Proof.
  induction l as [ | a l IH]; intros H; cbn [map]; constructor.
  - apply H. now left.
  - apply IH. intros b Hb. apply H. now right.
Qed.

(** C9 (amended). Over a collection with distinct document ids, a
    second round of [markMessagesAsRead] changes nothing (it issues no
    write at all), issuing the writes of the first round again leaves
    the same collection, and after a round every document keeps its id
    and all the uids its [readBy] list had, holds the user's uid at most
    once unless it already held it more often, and has the old list or
    the old list with the uid appended.  Each write carries the whole
    list: when the writes of a round reach a later state of the
    collection, every document they touch gets the list of the snapshot
    with the uid appended in place of the list stored since, and the
    other documents keep theirs. *)
Theorem mark_read_idempotent_monotone (u : User) (c : string)
    (coll : list DocSnap) :
  NoDup (map docId coll) ->
  let once := markRound u c coll in
  let writes :=
    markMessagesAsRead (Some u) (map toMessage (runQuery c coll)) in
  markRound u c once = once
  /\ markMessagesAsRead (Some u) (map toMessage (runQuery c once)) = []
  /\ applyUpdates writes once = once
  /\ Forall2 (fun d d' =>
                docId d' = docId d
                /\ (forall x, In x (readByOf d) -> In x (readByOf d'))
                /\ (count_occ string_dec (readByOf d') (uid u)
                    <= Nat.max 1 (count_occ string_dec (readByOf d) (uid u)))%nat
                /\ (readByOf d' = readByOf d
                    \/ readByOf d' = (readByOf d ++ [uid u])%list))
             coll once
  /\ (forall later,
        Forall2 (fun l l' =>
                   docId l' = docId l
                   /\ forall d, In d coll -> docId d = docId l ->
                        readByOf l'
                        = if datedIn c d && isUnread u (toMessage d)
                          then (readByOf d ++ [uid u])%list
                          else readByOf l)
                later (applyUpdates writes later)).
Proof.
  intros Hnd once writes.
  assert (E : once = map (markDoc u c) coll) by (now apply markRound_map).
  assert (Hnd' : NoDup (map docId once)).
  { rewrite E, map_map. erewrite map_ext; [exact Hnd | ].
    intros d. apply markDoc_id. }
  split; [ | split; [ | split; [ | split]]].
  - rewrite (markRound_map u c once Hnd'), E, map_map.
    apply map_ext. intros d. apply markDoc_idem.
  - rewrite mark_patches.
    replace (filter (fun d => isUnread u (toMessage d)) (runQuery c once))
      with (@nil DocSnap); [reflexivity | ].
    symmetry.
    destruct (filter (fun d => isUnread u (toMessage d)) (runQuery c once))
      as [ | t T] eqn:F; [reflexivity | exfalso].
    assert (Hin : In t (t :: T)) by now left.
    rewrite <- F in Hin. apply filter_In in Hin as [Hin Hun].
    apply runQuery_In in Hin as (Hin & Hc & Ht).
    rewrite E in Hin. apply in_map_iff in Hin as (d & <- & _).
    pose proof (markDoc_settled u c d) as S.
    rewrite Hc, Ht, Hun in S. discriminate.
  - unfold once, writes, markRound. apply applyUpdates_again.
  - rewrite E. clear. induction coll as [ | d l IH]; cbn [map]; constructor; [ | exact IH].
    split; [apply markDoc_id | ].
    destruct (markDoc_readBy u c d) as [-> | [-> Hn]].
    + split; [auto | ]. split; [lia | now left].
    + split; [intros x Hx; apply in_or_app; now left | ].
      split; [ | now right].
      rewrite count_occ_app.
      rewrite (proj1 (count_occ_not_In string_dec _ _) Hn).
      cbn [count_occ].
      destruct (string_dec (uid u) (uid u)); [cbn; lia | congruence].
  - intros later. rewrite applyUpdates_map. apply Forall2_map_self.
    intros l _. split; [apply written_id | ].
    intros d Hd Hid. unfold written. rewrite <- Hid.
    unfold writes. rewrite (lastWrite_round u c coll d Hnd Hd).
    rewrite datedIn_query.
    now destruct (whereCity c d && hasTimestamp d && isUnread u (toMessage d)).
Qed.
End ReceiptFacts.

Lemma mark_read_idempotent_monotone_witness :
  NoDup (map ChatScreen.docId Samples.pune)
  /\ ChatScreen.markRound Samples.alice "Pune"
       (ChatScreen.markRound Samples.alice "Pune" Samples.pune)
     = ChatScreen.markRound Samples.alice "Pune" Samples.pune.
Proof.
  assert (Hn : NoDup (map ChatScreen.docId Samples.pune)) by distinct_ids.
  split; [exact Hn | ].
  exact (proj1 (mark_read_idempotent_monotone Samples.alice "Pune"
                                              Samples.pune Hn)).
Defined.

(** Two screens read the same snapshot of Pune.  Alice's writes reach
    the collection first and store her uid on the message ["m2"]; the
    writes of Dave's screen, computed from the snapshot, then replace
    that list, and her uid is gone from it. *)
Lemma stale_write_counterexample :
  let snapshot :=
    map ChatScreen.toMessage (ChatScreen.runQuery "Pune" Samples.pune) in
  let stored :=
    ChatScreen.applyUpdates
      (ChatScreen.markMessagesAsRead (Some Samples.alice) snapshot)
      Samples.pune in
  let later :=
    ChatScreen.applyUpdates
      (ChatScreen.markMessagesAsRead (Some MoreSamples.dave) snapshot)
      stored in
  map (fun d => (ChatScreen.docId d, ChatScreen.readByOf d)) stored
  = [("m1", ["alice"]); ("m2", ["bob"; "alice"]); ("m3", ["carol"]);
     ("m4", ["bob"; "alice"])]
  /\ map (fun d => (ChatScreen.docId d, ChatScreen.readByOf d)) later
     = [("m1", ["alice"; "dave"]); ("m2", ["bob"; "dave"]); ("m3", ["carol"]);
        ("m4", ["bob"; "alice"; "dave"])]
  /\ In "alice" ["bob"; "alice"]
  /\ ~ In "alice" ["bob"; "dave"].
Proof.
  cbv zeta. split; [reflexivity | ]. split; [reflexivity | ].
  split; [right; now left | ].
  cbn. intuition discriminate.
Qed.

Example markRound_pune :
  map ChatScreen.readByOf
      (ChatScreen.markRound Samples.alice "Pune" Samples.pune)
  = [["alice"]; ["bob"; "alice"]; ["carol"]; ["bob"; "alice"]].
Proof. reflexivity. Qed.

(** ** The profile screen's optimistic updates *)

Section ProfileFacts.
Import Profile.

Ltac run_handler :=
  unfold exec, handleManageBlocked, blockUserCallback, unblockUserCallback,
    handleToggleNotifications, bind, ret, gets, alert, consoleError, emit,
    setModal, setBlockedUsers, setNotifications, modifyScreen, updateDoc;
  cbn [fst snd screen remote writeFails log user notifications blockedUsers modal].

Lemma toggle_result (value : bool) (w : World) :
  notifications (screen (exec (handleToggleNotifications value) w))
  = match user (screen w) with
    | Some _ => if writeFails w then negb value else value
    | None => value
    end.
Proof.
  run_handler. destruct (user (screen w)); [ | reflexivity].
  destruct (writeFails w); reflexivity.
Qed.

Lemma skipn_app_exact {A : Type} (l l' : list A) :
  skipn (List.length l) (l ++ l') = l'.
Proof. induction l; cbn; auto. Qed.

Lemma toggle_failed (value : bool) (w : World) (uid : string) :
  user (screen w) = Some uid -> writeFails w = true ->
  let w' := exec (handleToggleNotifications value) w in
  notifications (screen w') = negb value
  /\ blockedUsers (screen w') = blockedUsers (screen w)
  /\ remote w' = remote w
  /\ newEffects w w'
     = [UpdateDoc "users" uid (PNotifications value);
        ConsoleError "Error updating notifications:";
        AlertE "Error" "Failed to update notification settings."].
Proof.
  intros Hu Hf. unfold newEffects. run_handler. rewrite Hu.
  cbn [fst snd screen remote writeFails log user notifications blockedUsers modal].
  rewrite Hf.
  cbn [fst snd screen remote writeFails log user notifications blockedUsers modal].
  repeat split. rewrite <- !app_assoc. apply skipn_app_exact.
Qed.

Lemma block_result (email : string) (w : World) :
  let bl := blockedUsers (screen w) in
  blockedUsers (screen (exec (handleManageBlocked BlockUser email) w))
  = if (email =? "")%string then bl
    else if negb (emailRegex_test email) then bl
    else if JS.includes bl email then bl
    else match user (screen w) with
         | Some _ => if writeFails w then bl else (bl ++ [email])%list
         | None => (bl ++ [email])%list
         end.
Proof.
  run_handler.
  destruct (email =? "")%string; [reflexivity | ].
  destruct (emailRegex_test email); cbn [negb]; [ | reflexivity].
  destruct (JS.includes (blockedUsers (screen w)) email); [reflexivity | ].
  cbn [fst snd screen remote writeFails log user notifications blockedUsers modal].
  destruct (user (screen w)); [ | reflexivity].
  cbn [fst snd screen remote writeFails log user notifications blockedUsers modal].
  destruct (writeFails w); reflexivity.
Qed.

Lemma unblock_result (email : string) (w : World) :
  let bl := blockedUsers (screen w) in
  blockedUsers (screen (exec (handleManageBlocked UnblockUser email) w))
  = if (email =? "")%string then bl
    else if negb (JS.includes bl email) then bl
    else match user (screen w) with
         | Some _ => if writeFails w then bl
                     else filter (fun u => negb (u =? email)%string) bl
         | None => filter (fun u => negb (u =? email)%string) bl
         end.
Proof.
  run_handler.
  destruct (email =? "")%string; [reflexivity | ].
  destruct (JS.includes (blockedUsers (screen w)) email); cbn [negb]; [ | reflexivity].
  cbn [fst snd screen remote writeFails log user notifications blockedUsers modal].
  destruct (user (screen w)); [ | reflexivity].
  cbn [fst snd screen remote writeFails log user notifications blockedUsers modal].
  destruct (writeFails w); reflexivity.
Qed.

Ltac step :=
  cbn [fst snd screen remote writeFails log user notifications blockedUsers modal negb].

Ltac tail_of_log :=
  unfold newEffects; step; rewrite <- ?app_assoc; cbn [app];
  rewrite skipn_app_exact.

Lemma block_failed (email : string) (w : World) (uid : string) :
  user (screen w) = Some uid -> writeFails w = true ->
  let w' := exec (handleManageBlocked BlockUser email) w in
  blockedUsers (screen w') = blockedUsers (screen w)
  /\ notifications (screen w') = notifications (screen w)
  /\ remote w' = remote w
  /\ ((exists p, In (UpdateDoc "users" uid p) (newEffects w w')) ->
      In (AlertE "Error" "Failed to block user.") (newEffects w w')).
Proof.
  intros Hu Hf w'. split; [ | split; [ | split]].
  - unfold w'. rewrite block_result, Hu, Hf. cbn zeta.
    repeat match goal with |- context [if ?c then _ else _] => destruct c end;
      reflexivity.
  - unfold w'. run_handler.
    destruct (email =? "")%string; [reflexivity | ].
    destruct (emailRegex_test email); step; [ | reflexivity].
    destruct (JS.includes _ email); [reflexivity | ]. step. rewrite Hu. step.
    rewrite Hf. reflexivity.
  - unfold w'. run_handler.
    destruct (email =? "")%string; [reflexivity | ].
    destruct (emailRegex_test email); step; [ | reflexivity].
    destruct (JS.includes _ email); [reflexivity | ]. step. rewrite Hu. step.
    rewrite Hf. reflexivity.
  - unfold w'. run_handler.
    destruct (email =? "")%string.
    { tail_of_log. intros (p & [H | []]). discriminate. }
    destruct (emailRegex_test email); step.
    2:{ tail_of_log. intros (p & [H | [H | []]]); discriminate. }
    destruct (JS.includes _ email).
    { tail_of_log. intros (p & [H | [H | []]]); discriminate. }
    step. rewrite Hu. step. rewrite Hf. tail_of_log.
    intros _. cbn. tauto.
Qed.

Lemma unblock_failed (email : string) (w : World) (uid : string) :
  user (screen w) = Some uid -> writeFails w = true ->
  let w' := exec (handleManageBlocked UnblockUser email) w in
  blockedUsers (screen w') = blockedUsers (screen w)
  /\ notifications (screen w') = notifications (screen w)
  /\ remote w' = remote w
  /\ ((exists p, In (UpdateDoc "users" uid p) (newEffects w w')) ->
      In (AlertE "Error" "Failed to unblock user.") (newEffects w w')).
Proof.
  intros Hu Hf w'. split; [ | split; [ | split]].
  - unfold w'. rewrite unblock_result, Hu, Hf. cbn zeta.
    repeat match goal with |- context [if ?c then _ else _] => destruct c end;
      reflexivity.
  - unfold w'. run_handler.
    destruct (email =? "")%string; [reflexivity | ].
    destruct (JS.includes _ email); step; [ | reflexivity].
    rewrite Hu. step. rewrite Hf. reflexivity.
  - unfold w'. run_handler.
    destruct (email =? "")%string; [reflexivity | ].
    destruct (JS.includes _ email); step; [ | reflexivity].
    rewrite Hu. step. rewrite Hf. reflexivity.
  - unfold w'. run_handler.
    destruct (email =? "")%string.
    { tail_of_log. intros (p & [H | []]). discriminate. }
    destruct (JS.includes _ email); step.
    2:{ tail_of_log. intros (p & [H | [H | []]]); discriminate. }
    rewrite Hu. step. rewrite Hf. tail_of_log.
    intros _. cbn. tauto.
Qed.

Lemma toggle_failed_screen (value : bool) (w : World) (uid : string) :
  user (screen w) = Some uid -> writeFails w = true ->
  value <> notifications (screen w) ->
  screen (exec (handleToggleNotifications value) w) = screen w.
Proof.
  intros Hu Hf Hv. run_handler. rewrite Hu. step. rewrite Hf. step.
  destruct (screen w) as [u n b m]. cbn in Hu, Hv |- *. rewrite Hu.
  f_equal. destruct value, n; try reflexivity; now contradiction Hv.
Qed.

Lemma press_is_toggle (w : World) :
  exec pressSwitch w
  = exec (handleToggleNotifications (negb (notifications (screen w)))) w.
Proof. reflexivity. Qed.

Lemma block_failed_screen (email : string) (w : World) (uid : string) :
  user (screen w) = Some uid -> writeFails w = true ->
  screen (exec (handleManageBlocked BlockUser email) w)
  = mkScreen (user (screen w)) (notifications (screen w))
             (blockedUsers (screen w)) None.
Proof.
  intros Hu Hf. run_handler.
  destruct (email =? "")%string; [reflexivity | ].
  destruct (emailRegex_test email); step; [ | reflexivity].
  destruct (JS.includes _ email); [reflexivity | ]. step. rewrite Hu. step.
  rewrite Hf. reflexivity.
Qed.

Lemma unblock_failed_screen (email : string) (w : World) (uid : string) :
  user (screen w) = Some uid -> writeFails w = true ->
  screen (exec (handleManageBlocked UnblockUser email) w)
  = mkScreen (user (screen w)) (notifications (screen w))
             (blockedUsers (screen w)) None.
Proof.
  intros Hu Hf. run_handler.
  destruct (email =? "")%string; [reflexivity | ].
  destruct (JS.includes _ email); step; [ | reflexivity].
  rewrite Hu. step. rewrite Hf. reflexivity.
Qed.

Lemma block_failed_effects (email : string) (w : World) (uid : string) :
  user (screen w) = Some uid -> writeFails w = true ->
  email <> "" -> emailRegex_test email = true ->
  ~ In email (blockedUsers (screen w)) ->
  newEffects w (exec (handleManageBlocked BlockUser email) w)
  = [AlertE "Blocked Users" "What do you want to do?";
     UpdateDoc "users" uid
               (PBlockedUsers (blockedUsers (screen w) ++ [email])%list);
     ConsoleError "Error blocking user:";
     AlertE "Error" "Failed to block user."].
Proof.
  intros Hu Hf Hne Hre Hnin.
  assert (Hinc : JS.includes (blockedUsers (screen w)) email = false).
  { destruct (JS.includes (blockedUsers (screen w)) email) eqn:E; [ | reflexivity].
    apply includes_In in E. contradiction. }
  run_handler. destruct (String.eqb_spec email ""); [contradiction | ].
  rewrite Hre. step. rewrite Hinc. step. rewrite Hu. step. rewrite Hf.
  tail_of_log. reflexivity.
Qed.

Lemma unblock_failed_effects (email : string) (w : World) (uid : string) :
  user (screen w) = Some uid -> writeFails w = true ->
  email <> "" -> In email (blockedUsers (screen w)) ->
  newEffects w (exec (handleManageBlocked UnblockUser email) w)
  = [AlertE "Blocked Users" "What do you want to do?";
     UpdateDoc "users" uid
               (PBlockedUsers
                  (filter (fun u => negb (u =? email)%string)
                          (blockedUsers (screen w))));
     ConsoleError "Error unblocking user:";
     AlertE "Error" "Failed to unblock user."].
Proof.
  intros Hu Hf Hne Hin. apply includes_In in Hin.
  run_handler. destruct (String.eqb_spec email ""); [contradiction | ].
  rewrite Hin. step. rewrite Hu. step. rewrite Hf.
  tail_of_log. reflexivity.
Qed.

Lemma screen_eta (s : Screen) :
  modal s = None ->
  mkScreen (user s) (notifications s) (blockedUsers s) None = s.
Proof. destruct s as [u n b m]. cbn. now intros ->. Qed.

(** C1. When a user is signed in and the backend rejects the write, each
    of the three optimistic updates ends with the screen state it
    started from, the remote document unchanged and its error alert
    shown.  Pressing the notifications switch, which asks for the
    opposite of the value shown, attempts the write and restores the
    state.  Blocking and unblocking restore the blocked list, with the
    notifications flag and the user untouched and the modal closed, and
    show the error alert whenever a write was attempted, which happens
    for a well-formed email that is not yet blocked and for a blocked
    email that is to be unblocked. *)
Theorem failed_write_rolls_back (w : World) (uid : string) :
  user (screen w) = Some uid ->
  writeFails w = true ->
  (let w' := exec pressSwitch w in
   screen w' = screen w
   /\ remote w' = remote w
   /\ newEffects w w'
      = [UpdateDoc "users" uid
                   (PNotifications (negb (notifications (screen w))));
         ConsoleError "Error updating notifications:";
         AlertE "Error" "Failed to update notification settings."])
  /\ (forall value, value <> notifications (screen w) ->
        let w' := exec (handleToggleNotifications value) w in
        screen w' = screen w
        /\ remote w' = remote w
        /\ In (AlertE "Error" "Failed to update notification settings.")
              (newEffects w w'))
  /\ (forall email,
        let w' := exec (handleManageBlocked BlockUser email) w in
        blockedUsers (screen w') = blockedUsers (screen w)
        /\ notifications (screen w') = notifications (screen w)
        /\ user (screen w') = user (screen w)
        /\ (modal (screen w) = None -> screen w' = screen w)
        /\ remote w' = remote w
        /\ ((exists p, In (UpdateDoc "users" uid p) (newEffects w w')) ->
            In (AlertE "Error" "Failed to block user.") (newEffects w w'))
        /\ (email <> "" -> emailRegex_test email = true ->
            ~ In email (blockedUsers (screen w)) ->
            newEffects w w'
            = [AlertE "Blocked Users" "What do you want to do?";
               UpdateDoc "users" uid
                 (PBlockedUsers (blockedUsers (screen w) ++ [email])%list);
               ConsoleError "Error blocking user:";
               AlertE "Error" "Failed to block user."]))
  /\ (forall email,
        let w' := exec (handleManageBlocked UnblockUser email) w in
        blockedUsers (screen w') = blockedUsers (screen w)
        /\ notifications (screen w') = notifications (screen w)
        /\ user (screen w') = user (screen w)
        /\ (modal (screen w) = None -> screen w' = screen w)
        /\ remote w' = remote w
        /\ ((exists p, In (UpdateDoc "users" uid p) (newEffects w w')) ->
            In (AlertE "Error" "Failed to unblock user.") (newEffects w w'))
        /\ (email <> "" -> In email (blockedUsers (screen w)) ->
            newEffects w w'
            = [AlertE "Blocked Users" "What do you want to do?";
               UpdateDoc "users" uid
                 (PBlockedUsers
                    (filter (fun u => negb (u =? email)%string)
                            (blockedUsers (screen w))));
               ConsoleError "Error unblocking user:";
               AlertE "Error" "Failed to unblock user."])).
Proof.
  intros Hu Hf. split; [ | split; [ | split]].
  - cbv zeta. rewrite press_is_toggle.
    destruct (toggle_failed (negb (notifications (screen w))) w uid Hu Hf)
      as (_ & _ & Hr & He).
    split; [ | split; [exact Hr | exact He]].
    apply (toggle_failed_screen _ w uid Hu Hf).
    now destruct (notifications (screen w)).
  - intros value Hv w'.
    destruct (toggle_failed value w uid Hu Hf) as (_ & _ & Hr & He).
    fold w' in Hr, He.
    split; [now apply (toggle_failed_screen value w uid) | ].
    split; [exact Hr | ]. rewrite He. cbn. tauto.
  - intros email w'.
    destruct (block_failed email w uid Hu Hf) as (Hb & Hn & Hr & Ha).
    fold w' in Hb, Hn, Hr, Ha.
    pose proof (block_failed_screen email w uid Hu Hf) as Hs. fold w' in Hs.
    split; [exact Hb | ]. split; [exact Hn | ].
    split; [now rewrite Hs | ].
    split; [intros Hm; rewrite Hs; now apply screen_eta | ].
    split; [exact Hr | ]. split; [exact Ha | ].
    intros Hne Hre Hnin. now apply block_failed_effects.
  - intros email w'.
    destruct (unblock_failed email w uid Hu Hf) as (Hb & Hn & Hr & Ha).
    fold w' in Hb, Hn, Hr, Ha.
    pose proof (unblock_failed_screen email w uid Hu Hf) as Hs. fold w' in Hs.
    split; [exact Hb | ]. split; [exact Hn | ].
    split; [now rewrite Hs | ].
    split; [intros Hm; rewrite Hs; now apply screen_eta | ].
    split; [exact Hr | ]. split; [exact Ha | ].
    intros Hne Hin. now apply unblock_failed_effects.
Qed.

Lemma failed_write_rolls_back_witness :
  user (screen Samples.offline) = Some "u1"
  /\ writeFails Samples.offline = true
  /\ screen (exec pressSwitch Samples.offline) = screen Samples.offline
  /\ screen (exec (handleManageBlocked BlockUser "c@d.io") Samples.offline)
     = screen Samples.offline
  /\ screen (exec (handleManageBlocked UnblockUser "a@b.co") Samples.offline)
     = screen Samples.offline.
Proof.
  destruct (failed_write_rolls_back Samples.offline "u1" eq_refl eq_refl)
    as (Ht & _ & Hb & Hu).
  split; [reflexivity | ]. split; [reflexivity | ].
  split; [ | split].
  - exact (proj1 Ht).
  - exact (proj1 (proj2 (proj2 (proj2 (Hb "c@d.io")))) eq_refl).
  - exact (proj1 (proj2 (proj2 (proj2 (Hu "a@b.co")))) eq_refl).
Defined.

Example toggle_offline :
  newEffects Samples.offline (exec pressSwitch Samples.offline)
  = [UpdateDoc "users" "u1" (PNotifications false);
     ConsoleError "Error updating notifications:";
     AlertE "Error" "Failed to update notification settings."].
Proof. reflexivity. Qed.

(** A text that is not an email address and is not in the list is not
    appended, although the write would be accepted. *)
Lemma block_append_counterexample :
  ~ In "bob" (blockedUsers (screen Samples.online))
  /\ writeFails Samples.online = false
  /\ blockedUsers (screen (exec (handleManageBlocked BlockUser "bob") Samples.online))
     <> (blockedUsers (screen Samples.online) ++ ["bob"])%list.
Proof.
  split; [intros [] | ]. split; [reflexivity | ].
  vm_compute. discriminate.
Qed.

Example emailRegex_accepts :
  map emailRegex_test ["a@b.co"; "first.last@mail.example.org"]
  = [true; true].
Proof. vm_compute. reflexivity. Qed.

Example emailRegex_rejects :
  map emailRegex_test ["bob"; "a@b"; "a b@c.de"; "a@@b.co"; "@b.co"; "a@b."]
  = [false; false; false; false; false; false].
Proof. vm_compute. reflexivity. Qed.

Lemma filter_absent (email : string) (bl : list string) :
  ~ In email bl -> filter (fun u => negb (u =? email)%string) bl = bl.
Proof.
  induction bl as [ | x bl IH]; cbn; [reflexivity | ].
  intros H. destruct (String.eqb_spec x email) as [-> | _]; cbn.
  - exfalso. apply H. now left.
  - rewrite IH; [reflexivity | tauto].
Qed.

Lemma filter_removes (email : string) (bl : list string) :
  ~ In email (filter (fun u => negb (u =? email)%string) bl).
Proof.
  rewrite filter_In. intros [_ H]. now rewrite String.eqb_refl in H.
Qed.

Lemma NoDup_snoc (x : string) (l : list string) :
  NoDup l -> ~ In x l -> NoDup (l ++ [x]).
Proof.
  intros Hl Hx. apply NoDup_app.
  - exact Hl. 
  - repeat constructor. intros [].
  - intros y Hy [<- | []]. exact (Hx Hy).
Qed.

Lemma block_preserves_NoDup (email : string) (w : World) :
  NoDup (blockedUsers (screen w)) ->
  NoDup (blockedUsers (screen (exec (handleManageBlocked BlockUser email) w))).
Proof.
  intros H. rewrite block_result. cbn zeta.
  destruct (email =? "")%string; [exact H | ].
  destruct (negb (emailRegex_test email)); [exact H | ].
  destruct (JS.includes (blockedUsers (screen w)) email) eqn:E; [exact H | ].
  assert (Hn : ~ In email (blockedUsers (screen w))).
  { rewrite <- includes_In. congruence. }
  destruct (user (screen w)); [destruct (writeFails w) | ];
    auto using NoDup_snoc.
Qed.

Lemma unblock_preserves_NoDup (email : string) (w : World) :
  NoDup (blockedUsers (screen w)) ->
  NoDup (blockedUsers (screen (exec (handleManageBlocked UnblockUser email) w))).
Proof.
  intros H. rewrite unblock_result. cbn zeta.
  destruct (email =? "")%string; [exact H | ].
  destruct (negb (JS.includes (blockedUsers (screen w)) email)); [exact H | ].
  destruct (user (screen w)); [destruct (writeFails w) | ];
    auto using NoDup_filter.
Qed.

Lemma runOps_preserves_NoDup (ops : list (Op * bool)) (w : World) :
  NoDup (blockedUsers (screen w)) ->
  NoDup (blockedUsers (screen (runOps ops w))).
Proof.
  revert w. induction ops as [ | [o fails] ops IH]; intros w H; cbn [runOps].
  - exact H.
  - apply IH. destruct o as [e | e]; cbn [runOp].
    + now apply block_preserves_NoDup.
    + now apply unblock_preserves_NoDup.
Qed.

(** C8 (amended). From a list without duplicates, blocking and
    unblocking give lists without duplicates, and so does every run of
    such operations whatever the fate of their writes.  Blocking leaves
    the list unchanged for an email already in it and for an empty or
    malformed email, and appends a well-formed new email once when the
    write is accepted (or nobody is signed in); unblocking a non-empty
    email then removes every occurrence of it.  When the write is
    rejected both operations leave the list as it was. *)
Theorem blocked_users_unique (w : World) (email : string) :
  NoDup (blockedUsers (screen w)) ->
  let bl := blockedUsers (screen w) in
  let blocked :=
    blockedUsers (screen (exec (handleManageBlocked BlockUser email) w)) in
  let unblocked :=
    blockedUsers (screen (exec (handleManageBlocked UnblockUser email) w)) in
  NoDup blocked
  /\ NoDup unblocked
  /\ (forall ops, NoDup (blockedUsers (screen (runOps ops w))))
  /\ (In email bl -> blocked = bl)
  /\ (email = "" \/ emailRegex_test email = false -> blocked = bl)
  /\ (~ In email bl -> email <> "" -> emailRegex_test email = true ->
      user (screen w) = None \/ writeFails w = false ->
      blocked = (bl ++ [email])%list
      /\ count_occ string_dec blocked email = 1%nat)
  /\ (email <> "" ->
      user (screen w) = None \/ writeFails w = false ->
      unblocked = filter (fun u => negb (u =? email)%string) bl
      /\ ~ In email unblocked)
  /\ (user (screen w) <> None -> writeFails w = true ->
      blocked = bl /\ unblocked = bl).
Proof.
  intros Hnd bl blocked unblocked.
  split; [now apply block_preserves_NoDup | ].
  split; [now apply unblock_preserves_NoDup | ].
  split; [intros ops; now apply runOps_preserves_NoDup | ].
  split; [ | split; [ | split; [ | split]]].
  - intros Hin. unfold blocked. rewrite block_result. cbn zeta. fold bl.
    apply includes_In in Hin. rewrite Hin.
    destruct (email =? "")%string; [reflexivity | ].
    now destruct (negb (emailRegex_test email)).
  - intros H. unfold blocked. rewrite block_result. cbn zeta. fold bl.
    destruct (String.eqb_spec email ""); [reflexivity | ].
    destruct H as [-> | ->]; [contradiction | reflexivity].
  - intros Hnin Hne Hre Hok.
    assert (E : blocked = (bl ++ [email])%list).
    { unfold blocked. rewrite block_result. cbn zeta. fold bl.
      destruct (String.eqb_spec email ""); [contradiction | ].
      rewrite Hre. cbn [negb].
      destruct (JS.includes bl email) eqn:I.
      - apply includes_In in I. contradiction.
      - destruct Hok as [-> | ->]; [reflexivity | ].
        now destruct (user (screen w)). }
    split; [exact E | ].
    rewrite E, count_occ_app.
    rewrite (proj1 (count_occ_not_In string_dec _ _) Hnin).
    cbn [count_occ]. destruct (string_dec email email); [reflexivity | congruence].
  - intros Hne Hok.
    assert (E : unblocked = filter (fun u => negb (u =? email)%string) bl).
    { unfold unblocked. rewrite unblock_result. cbn zeta. fold bl.
      destruct (String.eqb_spec email ""); [contradiction | ].
      destruct (JS.includes bl email) eqn:I; cbn [negb].
      - destruct Hok as [-> | ->]; [reflexivity | ].
        now destruct (user (screen w)).
      - symmetry. apply filter_absent. rewrite <- includes_In. congruence. }
    split; [exact E | ]. rewrite E. apply filter_removes.
  - intros Hu Hf. unfold blocked, unblocked.
    rewrite block_result, unblock_result, Hf. cbn zeta. fold bl.
    destruct (user (screen w)); [ | contradiction].
    split;
      repeat match goal with |- context [if ?c then _ else _] => destruct c end;
      reflexivity.
Qed.

Lemma blocked_users_unique_witness :
  blockedUsers (screen (exec (handleManageBlocked BlockUser "c@d.io") Samples.online))
  = ["c@d.io"]
  /\ NoDup (blockedUsers (screen
       (runOps [(Block "c@d.io", false); (Block "c@d.io", false);
                (Unblock "x@y.zz", true); (Block "e@f.gh", false)] Samples.online))).
Proof.
  pose proof (blocked_users_unique Samples.online "c@d.io" (NoDup_nil _)) as H.
  cbv zeta in H.
  destruct H as (_ & _ & Hops & _ & _ & Happ & _ & _).
  split.
  - apply Happ; [intros [] | discriminate | reflexivity | now right].
  - apply Hops.
Defined.
End ProfileFacts.
(* ================================================================== *)
(** * Further properties: sending and showing messages *)
(* ================================================================== *)

Section SendFacts.
Import ChatScreen ChatSend.

Lemma trimEnd_empty (s : string) : trimEnd s = "" <-> blank s.
Proof.
  unfold blank. induction s as [ | ch s IH]; cbn [trimEnd list_ascii_of_string].
  - split; [constructor | reflexivity].
  - destruct (Profile.isSpace ch) eqn:Hc; cbn [andb].
    + destruct (String.eqb_spec (trimEnd s) "") as [E | N].
      * split; [ | reflexivity]. intros _. constructor; [exact Hc | now apply IH].
      * split; [discriminate | ]. intros H. apply Forall_inv_tail in H.
        apply IH in H. contradiction.
    + split; [discriminate | ]. intros H. apply Forall_inv in H. congruence.
Qed.

Lemma trim_empty (s : string) : trim s = "" <-> blank s.
Proof.
  unfold trim. induction s as [ | ch s IH]; cbn [trimStart].
  - apply trimEnd_empty.
  - destruct (Profile.isSpace ch) eqn:Hc.
    + rewrite IH. unfold blank. cbn [list_ascii_of_string]. split.
      * intros H. now constructor.
      * intros H. now apply Forall_inv_tail in H.
    + apply trimEnd_empty.
Qed.

Lemma handleSend_inv (text : string) (cityParam : option string) (ok : bool)
    (st : State) (coll : string) (d : DocumentData) :
  In (AddDoc coll d) (handleSend text cityParam ok st) ->
  exists u c,
    user st = Some u /\ cityParam = Some c /\ c <> "" /\ ~ blank text
    /\ coll = "messages" /\ d = outgoing u c text ChatScreen.text None.
Proof.
  unfold handleSend.
  destruct (user st) as [u | ]; [ | intros []].
  destruct cityParam as [c | ]; [ | intros []].
  destruct (String.eqb_spec (trim text) "") as [E | N]; [intros [] | ].
  destruct (String.eqb_spec c "") as [E | Nc]; [intros [] | ].
  cbn [orb]. intros [H | H].
  - injection H as <- <-. exists u, c. rewrite <- trim_empty. auto 10.
  - destruct ok; [destruct H | destruct H as [H | []]; discriminate].
Qed.

(** X1. [handleSend] writes nothing for a text of white space only,
    nor without a user or a selected city; otherwise it writes one
    message whose content is the text as typed (not trimmed), whose
    city is the selected one and whose [readBy] is the sender alone,
    and shows an alert only if that write is rejected. *)
Theorem handleSend_spec (text : string) (cityParam : option string)
    (ok : bool) (st : State) :
  (blank text -> handleSend text cityParam ok st = [])
  /\ (user st = None \/ cityParam = None \/ cityParam = Some "" ->
      handleSend text cityParam ok st = [])
  /\ (forall u c,
        user st = Some u -> cityParam = Some c -> c <> "" -> ~ blank text ->
        let d := outgoing u c text ChatScreen.text None in
        handleSend text cityParam ok st
        = AddDoc "messages" d
          :: (if ok then [] else [ShowAlert "Error" "Failed to send message"])
        /\ d_content d = Some text
        /\ d_city d = Some c
        /\ d_senderId d = Some (uid u)
        /\ d_readBy d = Some [uid u]).
Proof.
  split; [ | split].
  - intros Hb. apply trim_empty in Hb. unfold handleSend. rewrite Hb.
    destruct (user st); [ | reflexivity]. now destruct cityParam.
  - intros H. unfold handleSend.
    destruct (user st) as [u | ]; [ | reflexivity].
    destruct H as [H | [-> | ->]]; [discriminate | reflexivity | ].
    rewrite String.eqb_refl, orb_true_r. reflexivity.
  - intros u c Hu Hc Hne Hnb d. unfold handleSend. rewrite Hu, Hc.
    destruct (String.eqb_spec (trim text) "") as [E | _].
    { apply trim_empty in E. contradiction. }
    destruct (String.eqb_spec c "") as [E | _]; [contradiction | ].
    repeat split.
Qed.

Lemma created_id i t d : docId (created i t d) = i.
Proof. reflexivity. Qed.

Lemma created_timestamp i t d : hasTimestamp (created i t d) = true.
Proof. reflexivity. Qed.

Lemma created_city i t u c content ty md c' :
  whereCity c' (created i t (outgoing u c content ty md)) = true <-> c = c'.
Proof.
  unfold whereCity. cbn. now destruct (String.eqb_spec c c').
Qed.

Lemma orElse_some_self (s : string) : JS.orElse (Some s) "" = s.
Proof. cbn. now destruct (String.eqb_spec s "") as [-> | _]. Qed.

Lemma created_sender i t u c content ty md :
  senderId (toMessage (created i t (outgoing u c content ty md))) = uid u.
Proof. cbn. apply orElse_some_self. Qed.

Lemma created_readBy i t u c content ty md :
  readByOf (created i t (outgoing u c content ty md)) = [uid u].
Proof. reflexivity. Qed.

Lemma fresh_doc (coll : list DocSnap) (i : string) (new d : DocSnap) :
  ~ In i (map docId coll) -> docId new = i ->
  In d (coll ++ [new]) -> docId d = i -> d = new.
Proof.
  intros Hfresh Hnew Hin Hid. apply in_app_or in Hin as [Hin | [E | []]].
  - exfalso. apply Hfresh. rewrite <- Hid. now apply in_map.
  - now symmetry.
Qed.

Lemma addDoc_ids (coll : list DocSnap) (i : string) (t : Z) (d : DocumentData) :
  NoDup (map docId coll) -> ~ In i (map docId coll) ->
  NoDup (map docId (addDoc i t d coll)).
Proof.
  intros Hnd Hfresh. unfold addDoc. rewrite map_app. cbn [map].
  apply NoDup_app.
  - exact Hnd.
  - repeat constructor. intros [].
  - intros x Hx [<- | []]. exact (Hfresh Hx).
Qed.

(** X2. Once the backend has created a message that [handleSend] wrote
    (under a new id), the message is in the list of a subscriber exactly
    when the subscriber's city is the one it was sent from, and the
    sender's own screen never issues a read receipt for it. *)
Theorem sent_message_delivery (text : string) (cityParam : option string)
    (ok : bool) (st : State) (d : DocumentData) (coll : list DocSnap)
    (newId : string) (serverTime : Z) :
  In (AddDoc "messages" d) (handleSend text cityParam ok st) ->
  ~ In newId (map docId coll) ->
  let coll' := addDoc newId serverTime d coll in
  (forall c' st' u',
      c' <> "" -> user st' = Some u' ->
      (In newId (map id (messages (fst (subscribeAndReceive (Some c') coll' st'))))
       <-> cityParam = Some c'))
  /\ (forall c',
        ~ In newId (patchedIds
                      (snd (onSnapshot (runQuery c' coll') st)))).
Proof.
  intros Hsend Hfresh coll'.
  apply handleSend_inv in Hsend as (u & c & Hu & -> & Hc & _ & _ & ->).
  set (new := created newId serverTime (outgoing u c text ChatScreen.text None)) in *.
  assert (Hnew : forall c' dd, In dd (runQuery c' coll') -> docId dd = newId ->
                               dd = new /\ c = c').
  { intros c' dd Hin Hid. apply runQuery_In in Hin as (Hin & Hw & _).
    assert (dd = new) by (eapply fresh_doc; eauto). subst dd.
    split; [reflexivity | ]. now apply created_city in Hw. }
  split.
  - intros c' st' u' Hc' Hu'.
    rewrite (subscribe_messages c' coll' st' u' Hc' Hu'), toMessage_id, in_map_iff.
    split.
    + intros (dd & Hid & Hin). destruct (Hnew c' dd Hin Hid) as [_ <-]. reflexivity.
    + intros [= <-]. exists new. split; [reflexivity | ].
      apply runQuery_In. split; [ | split].
      * unfold coll', addDoc. apply in_or_app. right. now left.
      * now apply created_city.
      * reflexivity.
  - intros c' Hin. unfold onSnapshot in Hin. cbn [snd] in Hin. rewrite Hu in Hin.
    rewrite patchedIds_mark, in_map_iff in Hin.
    destruct Hin as (m & Hid & Hm). apply filter_In in Hm as [Hm Hun].
    apply in_map_iff in Hm as (dd & <- & Hdd).
    destruct (Hnew c' dd Hdd Hid) as [-> _].
    apply isUnread_iff in Hun as [Hs _]. apply Hs. apply created_sender.
Qed.

Lemma markDoc_fields (b : User) (c : string) (d : DocSnap) :
  whereCity c (markDoc b c d) = whereCity c d
  /\ hasTimestamp (markDoc b c d) = hasTimestamp d
  /\ senderId (toMessage (markDoc b c d)) = senderId (toMessage d).
Proof.
  unfold markDoc.
  destruct (whereCity c d && hasTimestamp d && isUnread b (toMessage d));
    repeat split.
Qed.

Lemma markDoc_keeps (b : User) (c : string) (d : DocSnap) (x : string) :
  In x (readByOf d) -> In x (readByOf (markDoc b c d)).
Proof.
  intros H. destruct (markDoc_readBy b c d) as [-> | [-> _]]; [exact H | ].
  apply in_or_app. now left.
Qed.

Lemma markDoc_marks (b : User) (c : string) (d : DocSnap) :
  whereCity c d = true -> hasTimestamp d = true ->
  senderId (toMessage d) <> uid b ->
  In (uid b) (readByOf (markDoc b c d)).
Proof.
  intros Hc Ht Hs. unfold markDoc. rewrite Hc, Ht. cbn [andb].
  destruct (isUnread b (toMessage d)) eqn:E.
  - cbn. apply in_or_app. right. now left.
  - unfold isUnread in E. apply andb_false_iff in E as [E | E].
    + apply negb_false_iff in E. apply String.eqb_eq in E. contradiction.
    + apply negb_false_iff in E. now apply includes_In in E.
Qed.

(** X3. The row of a message just sent shows the single check mark to
    its sender and no mark to anybody else; a round of read receipts by
    another user on that city turns its [readBy] into sender and reader,
    after which the sender's row shows the double check mark. *)
Theorem receipt_after_round (text : string) (cityParam : option string)
    (ok : bool) (st : State) (u b : User) (d : DocumentData)
    (coll : list DocSnap) (newId : string) (serverTime : Z) (c : string) :
  In (AddDoc "messages" d) (handleSend text cityParam ok st) ->
  user st = Some u ->
  cityParam = Some c ->
  NoDup (map docId coll) ->
  ~ In newId (map docId coll) ->
  uid b <> uid u ->
  let new := created newId serverTime d in
  let coll' := addDoc newId serverTime d coll in
  receipt (Some u) (toMessage new) = Some "checkmark"
  /\ receipt (Some b) (toMessage new) = None
  /\ In (setReadBy [uid u; uid b] new) (markRound b c coll')
  /\ receipt (Some u) (toMessage (setReadBy [uid u; uid b] new))
     = Some "checkmark-done".
Proof.
  intros Hsend Hu Hcity Hnd Hfresh Hne new coll'.
  apply handleSend_inv in Hsend as (u0 & c0 & Hu0 & Hc0 & Hc & _ & _ & Hd).
  assert (u0 = u) by congruence. assert (c0 = c) by congruence. subst u0 c0.
  assert (Hs : senderId (toMessage new) = uid u).
  { unfold new. rewrite Hd. apply created_sender. }
  assert (Hr : readByOf new = [uid u]) by (unfold new; now rewrite Hd).
  assert (Hrec : forall rb, isCurrentUser (Some u) (toMessage (setReadBy rb new)) = true).
  { intros rb. unfold isCurrentUser.
    change (senderId (toMessage (setReadBy rb new))) with (senderId (toMessage new)).
    rewrite Hs. apply String.eqb_refl. }
  split; [ | split; [ | split]].
  - unfold receipt, isCurrentUser. rewrite Hs, String.eqb_refl.
    unfold isRead. fold (readByOf new). now rewrite Hr.
  - unfold receipt, isCurrentUser. rewrite Hs.
    destruct (String.eqb_spec (uid u) (uid b)) as [E | _]; [congruence | reflexivity].
  - rewrite (markRound_map b c coll' (addDoc_ids coll newId serverTime d Hnd Hfresh)).
    apply in_map_iff. exists new. split.
    + unfold markDoc.
      assert (Hw : whereCity c new = true).
      { unfold new. rewrite Hd. now apply created_city. }
      assert (Hun : isUnread b (toMessage new) = true).
      { apply isUnread_iff. fold (readByOf new). rewrite Hs, Hr. split.
        - congruence.
        - intros [E | []]. congruence. }
      rewrite Hw, Hun. cbn [andb hasTimestamp new created data d_timestamp].
      now rewrite Hr.
    + unfold coll', addDoc. apply in_or_app. right. now left.
  - unfold receipt. rewrite Hrec. reflexivity.
Qed.

(** X4. After a round by one user followed by a round by another, each
    on the refreshed collection, every message of the city that carries
    a timestamp holds the uid of each of the two users that did not
    send it: the later round keeps the receipts of the earlier one. *)
Theorem rounds_of_two_users (a b : User) (c : string) (coll : list DocSnap) :
  NoDup (map docId coll) ->
  Forall (fun d =>
            whereCity c d = true -> hasTimestamp d = true ->
            (senderId (toMessage d) <> uid a -> In (uid a) (readByOf d))
            /\ (senderId (toMessage d) <> uid b -> In (uid b) (readByOf d)))
         (markRound b c (markRound a c coll)).
Proof.
  intros Hnd.
  assert (Hnd' : NoDup (map docId (markRound a c coll))).
  { rewrite (markRound_map a c coll Hnd), map_map.
    erewrite map_ext; [exact Hnd | ]. intros d. apply markDoc_id. }
  rewrite (markRound_map b c _ Hnd'), (markRound_map a c coll Hnd), map_map.
  apply Forall_forall. intros d2 Hin.
  apply in_map_iff in Hin as (d & <- & _).
  destruct (markDoc_fields b c (markDoc a c d)) as (Hw2 & Ht2 & Hs2).
  destruct (markDoc_fields a c d) as (Hw1 & Ht1 & Hs1).
  rewrite Hw2, Ht2, Hs2, Hw1, Ht1, Hs1. intros Hw Ht. split.
  - intros Hs. apply markDoc_keeps. now apply markDoc_marks.
  - intros Hs. apply markDoc_marks; congruence.
Qed.

Lemma written_setReadBy (es : list Effect) (rb : list string) (d : DocSnap) :
  setReadBy rb (written es d) = setReadBy rb d.
Proof. unfold written. now destruct (lastWrite (docId d) es). Qed.

(** X5. When two users' screens compute their receipts from the same
    snapshot, the write that lands second replaces the list written
    first: a message unread by both ends with the second user's uid and
    without the first one's. *)
Theorem concurrent_rounds_overwrite (a b : User) (c : string)
    (coll : list DocSnap) (d : DocSnap) :
  NoDup (map docId coll) ->
  In d coll ->
  whereCity c d = true -> hasTimestamp d = true ->
  isUnread a (toMessage d) = true -> isUnread b (toMessage d) = true ->
  uid a <> uid b ->
  let d' := setReadBy (readByOf d ++ [uid b])%list d in
  In d' (concurrentRounds a b c coll)
  /\ In (uid b) (readByOf d')
  /\ ~ In (uid a) (readByOf d').
Proof.
  intros Hnd Hin Hc Ht Hua Hub Hne d'.
  split; [ | split].
  - unfold concurrentRounds. rewrite !applyUpdates_map, map_map.
    apply in_map_iff. exists d. split; [ | exact Hin].
    unfold written at 1. rewrite written_id, mark_patches.
    rewrite lastWrite_patches_some.
    + apply written_setReadBy.
    + apply filter_In. split; [ | exact Hub]. apply runQuery_In. auto.
    + intros t Ht' Heq. apply filter_In in Ht' as [Ht' _].
      apply runQuery_In in Ht' as (Ht' & _).
      apply (NoDup_map_inj_on docId coll t d Hnd Ht' Hin Heq).
  - cbn. apply in_or_app. right. now left.
  - change (readByOf d') with (readByOf d ++ [uid b])%list.
    intros H. apply in_app_or in H as [H | [H | []]].
    + apply isUnread_iff in Hua. tauto.
    + congruence.
Qed.
End SendFacts.

Section MediaFacts.
Import ChatScreen ChatSend.

(** X6. With a user and a city, [handleSendMedia] always ends with the
    loading flag off and the message list untouched; it shows the
    "Failed to send media" alert once exactly when a step fails, writes
    the message exactly when the upload got its download URL, and
    stores the type [document] exactly for files. *)
Theorem handleSendMedia_outcomes (media : Media) (c : string) (now : Z)
    (io : UploadIO) (st : State) (u : User) :
  user st = Some u -> c <> "" ->
  let st' := fst (handleSendMedia media (Some c) now io st) in
  let calls := snd (handleSendMedia media (Some c) now io st) in
  isLoading st' = false
  /\ messages st' = messages st
  /\ user st' = user st
  /\ alertsOf calls
     = (if uploaded io && addOk io then []
        else [("Error", "Failed to send media")])
  /\ docsOf calls
     = (if uploaded io
        then [("messages",
               outgoing u c (mediaString (m_type media) ++ " shared")%string
                 (storedType (m_type media))
                 (Some (mkMetadata (downloadURL io) None None None
                                   (m_name media) None)))]
        else [])
  /\ (forall coll d, In (coll, d) (docsOf calls) ->
        (d_type d = Some document <-> m_type media = MFile)
        /\ d_readBy d = Some [uid u] /\ d_city d = Some c).
Proof.
  intros Hu Hc st' calls.
  assert (Es : st' = setIsLoading false (setIsLoading true st)).
  { unfold st', handleSendMedia. rewrite Hu.
    destruct (String.eqb_spec c ""); [contradiction | reflexivity]. }
  assert (Ed : docsOf calls
     = (if uploaded io
        then [("messages",
               outgoing u c (mediaString (m_type media) ++ " shared")%string
                 (storedType (m_type media))
                 (Some (mkMetadata (downloadURL io) None None None
                                   (m_name media) None)))]
        else [])).
  { unfold calls, handleSendMedia, uploaded. rewrite Hu.
    destruct (String.eqb_spec c ""); [contradiction | ]. cbn [snd].
    destruct (fetchOk io), (blobOk io), (uploadOk io);
      cbn [negb andb docsOf flat_map app]; try reflexivity.
    destruct (downloadURL io); [ | reflexivity].
    cbn [docsOf flat_map app]. now destruct (addOk io). }
  split; [now rewrite Es | ]. split; [now rewrite Es | ].
  split; [now rewrite Es | ]. split; [ | split; [exact Ed | ]].
  - unfold calls, handleSendMedia, uploaded. rewrite Hu.
    destruct (String.eqb_spec c ""); [contradiction | ]. cbn [snd].
    destruct (fetchOk io), (blobOk io), (uploadOk io);
      cbn [negb andb alertsOf flat_map app]; try reflexivity.
    destruct (downloadURL io); [ | reflexivity].
    cbn [alertsOf flat_map app]. now destruct (addOk io).
  - intros coll d Hin. rewrite Ed in Hin.
    destruct (uploaded io); [ | destruct Hin].
    destruct Hin as [[= <- <-] | []]. cbn.
    split; [ | auto]. destruct (m_type media); cbn; split; intros E; (discriminate E || reflexivity).
Qed.

Lemma formatDuration_whole (s : Q) :
  (0 < s)%Q ->
  formatDuration (Some s)
  = (JS.showZ (Qfloor s / 60) ++ ":" ++ twoDigits (Qfloor s mod 60))%string.
Proof.
  intros Hpos. assert (Hs : (0 <= s)%Q) by lra.
  unfold formatDuration.
  destruct (Qeq_bool s 0) eqn:E.
  { apply Qeq_bool_eq in E. lra. }
  assert (Hsec : JS.floor (JS.rem s 60) = Qfloor s mod 60).
  { unfold JS.floor, JS.rem. rewrite trunc_floor.
    - rewrite floor_div_60 by exact Hs.
      assert (Eq : (s - 60 * inject_Z (Qfloor s / 60)
                    == s - inject_Z (60 * (Qfloor s / 60)))%Q).
      { rewrite inject_Z_mult. reflexivity. }
      rewrite (Qfloor_comp _ _ Eq), floor_sub_int.
      pose proof (Z.div_mod (Qfloor s) 60 ltac:(lia)). lia.
    - apply Qle_shift_div_l; lra. }
  unfold JS.floor at 1. rewrite floor_div_60 by exact Hs. rewrite Hsec.
  rewrite <- pad_twoDigits; [reflexivity | ].
  apply Z.mod_pos_bound. lia.
Qed.

Lemma audio_call (uri c : string) (now : Z) (io : UploadIO) (st : State)
    (u : User) :
  user st = Some u -> c <> "" ->
  docsOf (snd (handleSendAudio uri (Some c) now io st))
  = (if uploaded io && soundOk io
     then [("messages",
            outgoing u c "audio shared" audio
              (Some (mkMetadata (downloadURL io) (Some (audioDuration io))
                                None None None None)))]
     else []).
Proof.
  intros Hu Hc. unfold handleSendAudio, uploaded. rewrite Hu.
  destruct (String.eqb_spec c ""); [contradiction | ]. cbn [snd].
  destruct (fetchOk io), (blobOk io), (uploadOk io);
    cbn [negb andb docsOf flat_map app]; try reflexivity.
  destruct (downloadURL io); [ | reflexivity].
  cbn [docsOf flat_map app andb].
  destruct (soundOk io); cbn [negb docsOf flat_map app]; [ | reflexivity].
  now destruct (addOk io).
Qed.

(** X7. The label of an audio message written by [handleSendAudio] is
    ["0:00"] when the recording's status has no duration, and for a
    duration of [ms] milliseconds, a whole number from 0 and below 2^53,
    it is the whole minutes of [ms], a colon and the whole seconds
    modulo 60 on two digits. *)
Theorem audio_label (uri c : string) (now : Z) (io : UploadIO) (st : State)
    (u : User) (d : DocumentData) (newId : string) (serverTime : Z) :
  user st = Some u -> c <> "" ->
  In ("messages", d) (docsOf (snd (handleSendAudio uri (Some c) now io st))) ->
  let shown := audioLabel (toMessage (created newId serverTime d)) in
  (durationMillis io = None -> shown = "0:00")
  /\ (forall ms, durationMillis io = Some ms -> 0 <= ms < 2 ^ 53 ->
        shown = (JS.showZ (ms / 60000) ++ ":"
                   ++ twoDigits ((ms / 1000) mod 60))%string).
Proof.
  intros Hu Hc Hin shown.
  rewrite (audio_call uri c now io st u Hu Hc) in Hin.
  destruct (uploaded io && soundOk io); [ | destruct Hin].
  destruct Hin as [[= <-] | []].
  assert (E : shown = formatDuration (Some (audioDuration io))) by reflexivity.
  split.
  - intros Hn. rewrite E. unfold audioDuration. rewrite Hn. reflexivity.
  - intros ms Hms [Hlo _]. rewrite E. unfold audioDuration. rewrite Hms.
    destruct (Z.eq_dec ms 0) as [-> | Hnz]; [reflexivity | ].
    rewrite formatDuration_whole.
    + change 1000%Q with (inject_Z 1000). rewrite <- Zdiv_Qdiv.
      rewrite Z.div_div by lia. reflexivity.
    + apply Qlt_shift_div_l; [reflexivity | ].
      rewrite Qmult_0_l. change (inject_Z 0 < inject_Z ms)%Q.
      rewrite <- Zlt_Qlt. lia.
Qed.
End MediaFacts.

Section LocationFacts.
Import ChatScreen ChatSend.
Variable showNumber : Q -> string.

(** X8. [handleSendLocation] writes one location message; pressing its
    row shows the location alert when both coordinates are non-zero, and
    does nothing when the latitude or the longitude is 0. *)
Theorem location_row_opens (coords : Q * Q) (c : string) (st : State)
    (u : User) (newId : string) (serverTime : Z) :
  user st = Some u -> c <> "" ->
  exists d,
    handleSendLocation true coords (Some c) st = [AddDoc "messages" d]
    /\ let row := toMessage (created newId serverTime d) in
       type row = location
       /\ ((fst coords == 0 \/ snd coords == 0)%Q ->
           pressLocation showNumber row = [])
       /\ (~ (fst coords == 0)%Q -> ~ (snd coords == 0)%Q ->
           pressLocation showNumber row
           = [ShowAlert "Location"
                ("Latitude: " ++ showNumber (fst coords) ++ ", Longitude: "
                   ++ showNumber (snd coords))%string]).
Proof.
  intros Hu Hc. unfold handleSendLocation. cbn [negb]. rewrite Hu.
  destruct (String.eqb_spec c ""); [contradiction | ].
  eexists. split; [reflexivity | ].
  cbn zeta. split; [reflexivity | ].
  unfold pressLocation, openLocation.
  cbn [toMessage created metadata data d_metadata outgoing latitude longitude].
  split.
  - intros [H | H]; apply Qeq_bool_iff in H; rewrite H;
      [reflexivity | now rewrite orb_true_r].
  - intros H1 H2.
    destruct (Qeq_bool (fst coords) 0) eqn:E1.
    { apply Qeq_bool_iff in E1. contradiction. }
    destruct (Qeq_bool (snd coords) 0) eqn:E2.
    { apply Qeq_bool_iff in E2. contradiction. }
    reflexivity.
Qed.
End LocationFacts.

(* ================================================================== *)
(** * Further properties: handled alerts, Team Chat, account, home *)
(* ================================================================== *)

Section RespondedFacts.
Import Dashboard Responded.

Lemma newerFirst_millis (a b : Doc) :
  newerFirst a b <-> (millis b <= millis a)%Q.
Proof.
  unfold newerFirst, millis.
  destruct (toMillis a), (toMillis b); try reflexivity.
  split; [intros _; apply Qle_refl | auto].
Qed.

Lemma createdAtMillis_millis (k : Q) (d : Doc) :
  createdAtMillis k d = Qeq_bool (millis d) k.
Proof. unfold createdAtMillis, millis. now destruct (toMillis d). Qed.

Lemma insertDesc_perm (x : Doc) (l : list Doc) :
  Permutation (insertDesc x l) (x :: l).
Proof.
  induction l as [ | y l IH]; cbn [insertDesc]; [reflexivity | ].
  destruct (Qle_bool (millis y) (millis x)); [reflexivity | ].
  rewrite IH. apply perm_swap.
Qed.

Lemma insertDesc_sorted (x : Doc) (l : list Doc) :
  Sorted newerFirst l -> Sorted newerFirst (insertDesc x l).
Proof.
  induction 1 as [ | y l Hs IH Hhd]; cbn [insertDesc].
  - repeat constructor.
  - destruct (Qle_bool (millis y) (millis x)) eqn:E.
    + apply Qle_bool_iff in E. constructor; [now constructor | ].
      constructor. now apply newerFirst_millis.
    + assert (Hyx : newerFirst y x).
      { apply newerFirst_millis.
        destruct (Qlt_le_dec (millis y) (millis x)) as [H | H].
        - apply Qlt_le_weak, Qle_bool_iff in H. congruence.
        - exact H. }
      constructor; [exact IH | ].
      destruct Hhd as [ | z l' Hyz]; cbn [insertDesc].
      * constructor. exact Hyx.
      * destruct (Qle_bool (millis z) (millis x)); constructor; assumption.
Qed.

Lemma insertDesc_stable (k : Q) (x : Doc) (l : list Doc) :
  filter (createdAtMillis k) (insertDesc x l)
  = filter (createdAtMillis k) (x :: l).
Proof.
  induction l as [ | y l IH]; cbn [insertDesc]; [reflexivity | ].
  destruct (Qle_bool (millis y) (millis x)) eqn:E; [reflexivity | ].
  cbn [filter] in IH |- *. rewrite IH.
  destruct (createdAtMillis k x) eqn:Ex; [ | reflexivity].
  destruct (createdAtMillis k y) eqn:Ey; [ | reflexivity].
  exfalso. rewrite createdAtMillis_millis in Ex, Ey.
  apply Qeq_bool_iff in Ex, Ey.
  assert (H : (millis y <= millis x)%Q) by (rewrite Ex, Ey; apply Qle_refl).
  apply Qle_bool_iff in H. congruence.
Qed.

Lemma sorted_split {A : Type} (R : A -> A -> Prop) (n : nat) (l : list A) :
  StronglySorted R l ->
  forall a b, In a (firstn n l) -> In b (skipn n l) -> R a b.
Proof.
  intros Hs. revert n. induction Hs as [ | x l Hs IH Hall]; intros n a b.
  - rewrite firstn_nil. intros [].
  - destruct n as [ | n]; cbn [firstn skipn]; [intros [] | ].
    intros [<- | Ha] Hb.
    + rewrite Forall_forall in Hall. apply Hall.
      rewrite <- (firstn_skipn n l). apply in_or_app. now right.
    + now apply (IH n).
Qed.

(** X9. The list of responded requests is the snapshot rearranged so
    that no entry was created later than an entry before it, by the
    [toMillis()] of their [createdAt] with a missing one counting as 0;
    requests created at the same millisecond keep their order; the
    handled count is the length of the list, the recent activity its
    first five entries, none of them older than an entry left out. *)
Theorem responded_lists (docs : list Doc) :
  let h := onSnapshot docs in
  Permutation (myResponded h) docs
  /\ StronglySorted newerFirst (myResponded h)
  /\ (forall l1 a l2 b l3 x y,
        myResponded h = (l1 ++ a :: l2 ++ b :: l3)%list ->
        toMillis a = Some x -> toMillis b = Some y -> (y <= x)%Q)
  /\ (forall k, filter (createdAtMillis k) (myResponded h)
                = filter (createdAtMillis k) docs)
  /\ handledCount h = List.length (myResponded h)
  /\ recentActivity h = firstn 5 (myResponded h)
  /\ List.length (recentActivity h) = Nat.min 5 (List.length docs)
  /\ (forall a b, In a (recentActivity h) -> In b (skipn 5 (myResponded h)) ->
        newerFirst a b).
Proof.
  intros h.
  assert (Hp : Permutation (sortDesc docs) docs).
  { unfold sortDesc. clear. induction docs as [ | x l IH]; cbn [fold_right]; [reflexivity | ].
    rewrite insertDesc_perm. now constructor. }
  assert (Hs : StronglySorted newerFirst (sortDesc docs)).
  { apply Sorted_StronglySorted.
    - intros a b c Hab Hbc. apply newerFirst_millis.
      apply newerFirst_millis in Hab, Hbc. now apply Qle_trans with (millis b).
    - unfold sortDesc. clear. induction docs as [ | x l IH]; cbn [fold_right]; [constructor | ].
      apply insertDesc_sorted, IH. }
  split; [exact Hp | ]. split; [exact Hs | ].
  split; [ | split; [ | split; [ | split; [ | split]]]].
  - intros l1 a l2 b l3 x y El Ha Hb.
    cbn [h onSnapshot myResponded] in El. rewrite El in Hs.
    assert (Hab : newerFirst a b).
    { clear - Hs. induction l1 as [ | c l1 IH]; cbn [app] in Hs.
      - inversion Hs as [ | a' l' _ Hall]; subst.
        rewrite Forall_forall in Hall. apply Hall.
        apply in_or_app. right. now left.
      - inversion Hs; subst. now apply IH. }
    unfold newerFirst in Hab. now rewrite Ha, Hb in Hab.
  - intros k. cbn [h onSnapshot myResponded]. unfold sortDesc. clear.
    induction docs as [ | x l IH]; cbn [fold_right]; [reflexivity | ].
    rewrite insertDesc_stable. cbn [filter]. now rewrite IH.
  - cbn [h onSnapshot handledCount myResponded].
    symmetry. exact (Permutation_length Hp).
  - reflexivity.
  - cbn [h onSnapshot recentActivity]. rewrite length_firstn.
    now rewrite (Permutation_length Hp).
  - intros a b. now apply sorted_split.
Qed.
End RespondedFacts.

Section TeamChatFacts.
Import ChatScreen.

(** X10. The Team Chat card opens the chat on the employee's own city:
    the screen then subscribes to that city and shows its messages with
    the spinner off.  For an employee without a city the chat opens
    with an empty city, never subscribes and stays on its spinner. *)
Theorem team_chat_city (e : UserData) (authUid : string) (coll : list DocSnap) :
  role e = Some "employee" ->
  let st := fst (onAuthStateChanged (Some authUid) (GetResolved (Some e))
                                    initialState) in
  let opened := subscribeAndReceive
                  (Some (Responded.teamChatCity (Some e))) coll st in
  (ud_city e = None \/ ud_city e = Some "" ->
   opened = (st, []) /\ isLoading st = true /\ messages st = [])
  /\ (forall c, ud_city e = Some c -> c <> "" ->
        snd opened
        = Subscribe "messages" c
          :: markMessagesAsRead (user st) (messages (fst opened))
        /\ isLoading (fst opened) = false
        /\ messages (fst opened) = map toMessage (runQuery c coll)
        /\ (forall m, In m (messages (fst opened)) -> city m = c)).
Proof.
  intros Hr st opened.
  assert (Est : st = setUser (spreadUser authUid e) initialState).
  { unfold st, onAuthStateChanged, notEmployee. rewrite Hr. reflexivity. }
  split.
  - intros H.
    assert (E : Responded.teamChatCity (Some e) = "").
    { unfold Responded.teamChatCity. destruct H as [-> | ->]; reflexivity. }
    unfold opened. rewrite E, Est. repeat split.
  - intros c Hc Hne.
    assert (E : Responded.teamChatCity (Some e) = c).
    { unfold Responded.teamChatCity, JS.orElse. rewrite Hc.
      now destruct (String.eqb_spec c ""). }
    assert (Eo : opened
                 = (setIsLoading false
                      (setMessages (map toMessage (runQuery c coll))
                                   (setIsLoading true st)),
                    Subscribe "messages" c
                    :: markMessagesAsRead (user st)
                         (map toMessage (runQuery c coll)))).
    { unfold opened. rewrite E, Est.
      unfold subscribeAndReceive, messagesEffect. cbn [user setUser].
      destruct (String.eqb_spec c ""); [contradiction | ]. reflexivity. }
    rewrite Eo. cbn [fst snd]. repeat split.
    intros m Hm. cbn in Hm. apply in_map_iff in Hm as (d & <- & Hd).
    apply runQuery_In in Hd as (_ & Hw & _).
    now apply (whereCity_city c d Hne).
Qed.
End TeamChatFacts.

Section AccountFacts.
Import Account.

Ltac password_cases :=
  repeat match goal with
         | H : In _ (_ :: _) |- _ => destruct H as [H | H]
         | H : In _ [] |- _ => destruct H
         | H : _ \/ _ |- _ => destruct H
         | H : _ /\ _ |- _ => destruct H
         | H : exists _, _ |- _ => destruct H
         | H : ?x = ?x -> False |- _ => now contradiction H
         | H : ?x <> ?x |- _ => now contradiction H
         | H : _ = _ |- _ => discriminate H
         | H : _ = _ |- _ => injection H as H; subst
         | H : _ = _ |- _ => progress subst
         | H : (6 <= String.length "")%nat |- _ => cbn in H; lia
         end;
  try contradiction; try lia;
  repeat match goal with
         | |- _ /\ _ => split
         | |- exists _, _ => eexists
         end;
  try reflexivity; try assumption; try lia; try (now left); try congruence.

(** X11. The profile screen changes a password only with a new password
    of at least 6 characters, a non-empty current one, an account email
    and after a successful re-authentication with the current password;
    it shows exactly one alert once both texts are entered, and the
    success alert exactly when both authentication calls succeed. *)
Theorem change_password_guards (email : option string)
    (reauth update : option AuthError) (oldPassword newPassword : string) :
  let calls := handleChangePassword email reauth update oldPassword newPassword in
  (forall p, In (UpdatePassword p) calls ->
      p = newPassword /\ (6 <= String.length newPassword)%nat
      /\ oldPassword <> "" /\ reauth = None
      /\ exists em rest, email = Some em /\ em <> ""
           /\ calls = Reauthenticate em oldPassword :: UpdatePassword p :: rest)
  /\ (forall em pw, In (Reauthenticate em pw) calls ->
        email = Some em /\ pw = oldPassword
        /\ (6 <= String.length newPassword)%nat)
  /\ (oldPassword = "" \/ newPassword = "" -> calls = [])
  /\ (oldPassword <> "" -> newPassword <> "" ->
      List.length (alerts calls) = 1%nat)
  /\ (In ("Success", "Password changed successfully.") (alerts calls) <->
      oldPassword <> "" /\ (6 <= String.length newPassword)%nat
      /\ (exists em, email = Some em /\ em <> "")
      /\ reauth = None /\ update = None).
Proof.
  intros calls. unfold calls, handleChangePassword.
  destruct (String.eqb_spec oldPassword "") as [Eo | No];
  [ | destruct (String.eqb_spec newPassword "") as [En | Nn];
  [ | destruct (Nat.ltb_spec (String.length newPassword) 6) as [Hlt | Hge];
  [ | destruct email as [em | ];
  [ destruct (String.eqb_spec em "") as [Ee | Ne];
  [ | destruct reauth as [er | ]; [ | destruct update as [eu | ]]] | ]]]];
  cbn [alerts flat_map app List.length];
  (split; [ | split; [ | split; [ | split]]]);
  try (intros p Hin; password_cases);
  try (intros em' pw Hin; password_cases);
  try (intros Hor; password_cases);
  try (intros Ho Hn; password_cases);
  try (split; intros Hs; password_cases).
Qed.
End AccountFacts.

Section FormFacts.
Import Account.

(** X12. The admin profile screen has no length check: a non-empty new
    password shorter than 6 characters is sent to [updatePassword]
    after re-authentication, where the profile screen stops with its
    length alert and makes no authentication call. *)
Theorem admin_password_unchecked (em : string)
    (update : option AuthError) (oldPassword newPassword : string) :
  oldPassword <> "" -> newPassword <> "" -> em <> "" ->
  (String.length newPassword < 6)%nat ->
  adminHandleChangePassword (Some em) None update oldPassword newPassword
  = Reauthenticate em oldPassword :: UpdatePassword newPassword
    :: [PasswordAlert
          (match update with Some _ => "Error" | None => "Success" end)
          (match update with
           | Some e => adminErrorMessage e
           | None => "Password changed successfully."
           end)]
  /\ handleChangePassword (Some em) None update oldPassword newPassword
     = [PasswordAlert "Error" "Password must be at least 6 characters long."].
Proof.
  intros Ho Hn He Hlen.
  unfold adminHandleChangePassword, handleChangePassword.
  destruct (String.eqb_spec oldPassword ""); [contradiction | ].
  destruct (String.eqb_spec newPassword ""); [contradiction | ].
  destruct (String.eqb_spec em ""); [contradiction | ].
  destruct (Nat.ltb_spec (String.length newPassword) 6); [ | lia].
  split; [ | reflexivity]. now destruct update.
Qed.

Lemma orNull_twice (s : option string) : orNull (orNull s) = orNull s.
Proof.
  destruct s as [v | ]; [ | reflexivity]. cbn.
  destruct (String.eqb_spec v "") as [E | N]; [reflexivity | ].
  cbn. now destruct (String.eqb_spec v "").
Qed.

(** X13. Saving the profile form and fetching it again gives back the
    saved name, contact, medical note, notifications flag and blocked
    list; the photo comes back as saved, except that an empty photo URL
    comes back as no photo, so the form comes back whole unless its
    photo is the empty URL.  A form that was itself fetched comes back
    unchanged.  A rejected save leaves the remote document alone and
    shows the error alert, and without a user nothing happens. *)
Theorem save_then_fetch (uid : string) (now : Z) (f f0 : Form)
    (remote : ProfileDoc) :
  let saved := fst (saveProfile (Some uid) true now f remote) in
  let back := fetchProfile (Some saved) f0 in
  (name back = name f /\ contact back = contact f /\ medical back = medical f
   /\ notifications back = notifications f
   /\ blockedUsers back = blockedUsers f)
  /\ (photo f = Some "" -> photo back = None /\ back <> f)
  /\ (photo f <> Some "" -> photo back = photo f /\ back = f)
  /\ (forall docSnap,
        let loaded := fetchProfile (Some docSnap) f0 in
        photo loaded <> Some ""
        /\ fetchProfile
             (Some (fst (saveProfile (Some uid) true now loaded remote))) f0
           = loaded)
  /\ saveProfile (Some uid) false now f remote
     = (remote, [("Error", "Failed to update profile. Please try again.")])
  /\ saveProfile None true now f remote = (remote, []).
Proof.
  intros saved back.
  assert (E : back
              = mkForm (name f) (contact f) (medical f) (notifications f)
                       (orNull (photo f)) (blockedUsers f)).
  { unfold back, saved, saveProfile, fetchProfile.
    cbn [fst d_fullName d_contact d_medical d_notifications d_photoUrl
         d_blockedUsers].
    now rewrite !orElse_some_self. }
  split; [rewrite E; repeat split | ].
  split; [ | split; [ | split; [ | split; reflexivity]]].
  - intros Hp. rewrite E. cbn [photo]. rewrite Hp. split; [reflexivity | ].
    intros H. apply (f_equal photo) in H. cbn in H. congruence.
  - intros Hp.
    assert (Eo : orNull (photo f) = photo f).
    { destruct (photo f) as [v | ]; [ | reflexivity]. cbn.
      destruct (String.eqb_spec v "") as [-> | _];
        [now contradiction Hp | reflexivity]. }
    rewrite E, Eo. split; [reflexivity | ]. now destruct f.
  - intros docSnap loaded. split.
    + unfold loaded, fetchProfile. cbn [photo].
      destruct (d_photoUrl docSnap) as [v | ]; cbn; [ | discriminate].
      destruct (String.eqb_spec v "") as [-> | N]; [discriminate | ].
      intros [= H]. contradiction.
    + unfold saveProfile, fetchProfile.
      cbn [fst d_fullName d_contact d_medical d_notifications d_photoUrl
           d_blockedUsers].
      rewrite !orElse_some_self. unfold loaded, fetchProfile.
      cbn [name contact medical notifications photo blockedUsers].
      now rewrite orNull_twice.
Qed.
End FormFacts.

Section HomeFacts.
Import Home.

Lemma beforeAt_prefix (e : string) :
  exists rest,
    e = (beforeAt e ++ rest)%string
    /\ (rest = "" \/ exists r, rest = String "@" r).
Proof.
  induction e as [ | ch e (rest & IH & Hrest)]; cbn [beforeAt].
  - exists "". auto.
  - destruct (Ascii.eqb_spec ch "@") as [-> | N].
    + exists (String "@" e). split; [reflexivity | ]. right. now exists e.
    + exists rest. split; [ | exact Hrest]. cbn. now rewrite <- IH.
Qed.

Lemma beforeAt_clean (e : string) :
  ~ In "@"%char (list_ascii_of_string (beforeAt e)).
Proof.
  induction e as [ | ch e IH]; cbn [beforeAt]; [intros [] | ].
  destruct (Ascii.eqb_spec ch "@") as [-> | N]; [intros [] | ].
  cbn. intros [E | H]; [exact (N E) | now apply IH].
Qed.

(** X14. The home screen's header shows the profile name when it is
    non-empty, ["User"] when there is neither a name nor an email, and
    otherwise the part of the email before its first ['@']: a prefix of
    the email without ['@'], empty exactly when the email starts with
    ['@']. *)
Theorem displayName_cases (profileName email : option string) :
  (forall n, profileName = Some n -> n <> "" ->
      displayName profileName email = n)
  /\ (profileName = None \/ profileName = Some "" ->
      (email = None \/ email = Some "" ->
       displayName profileName email = "User")
      /\ (forall e, email = Some e -> e <> "" ->
            let shown := displayName profileName email in
            (exists rest, e = (shown ++ rest)%string
                          /\ (rest = "" \/ exists r, rest = String "@" r))
            /\ ~ In "@"%char (list_ascii_of_string shown)
            /\ (shown = "" <-> exists r, e = String "@" r))).
Proof.
  split.
  - intros n -> Hn. unfold displayName.
    now destruct (String.eqb_spec n "").
  - intros Hp.
    assert (E : displayName profileName email
                = match email with
                  | Some e => if negb (e =? "")%string then beforeAt e else "User"
                  | None => "User"
                  end).
    { destruct Hp as [-> | ->]; reflexivity. }
    split.
    + intros [-> | ->]; rewrite E; reflexivity.
    + intros e -> Hne shown.
      assert (Es : shown = beforeAt e).
      { unfold shown. rewrite E. now destruct (String.eqb_spec e ""). }
      rewrite Es. split; [apply beforeAt_prefix | ].
      split; [apply beforeAt_clean | ].
      destruct e as [ | ch e]; [contradiction | ]. cbn [beforeAt].
      destruct (Ascii.eqb_spec ch "@") as [-> | N].
      * split; [intros _; now exists e | reflexivity].
      * split; [discriminate | intros (r & [= H _]); contradiction].
Qed.
End HomeFacts.

Section BlockedSyncFacts.
Import Profile ProfileSync.

Ltac run_blocked :=
  unfold exec, handleManageBlocked, blockUserCallback, unblockUserCallback,
    bind, ret, gets, alert, consoleError, emit, setModal, setBlockedUsers,
    modifyScreen, updateDoc;
  cbn [fst snd screen remote writeFails log user notifications blockedUsers
       modal negb applyPatch r_blockedUsers r_notifications].

Ltac branch :=
  cbn [fst snd screen remote writeFails log user notifications blockedUsers
       modal negb applyPatch r_blockedUsers r_notifications].

Lemma block_keeps (email : string) (w : World) :
  let w' := exec (handleManageBlocked BlockUser email) w in
  user (screen w') = user (screen w)
  /\ writeFails w' = writeFails w
  /\ notifications (screen w') = notifications (screen w)
  /\ (user (screen w) <> None -> inSync w -> inSync w').
Proof.
  unfold inSync. run_blocked.
  destruct (email =? "")%string; [repeat split; auto | ].
  destruct (emailRegex_test email); branch; [ | repeat split; auto].
  destruct (JS.includes (blockedUsers (screen w)) email); [repeat split; auto | ].
  branch. destruct (user (screen w)) as [uid | ]; branch.
  - destruct (writeFails w); branch; repeat split; auto.
  - repeat split. intros H. now contradiction H.
Qed.

Lemma unblock_keeps (email : string) (w : World) :
  let w' := exec (handleManageBlocked UnblockUser email) w in
  user (screen w') = user (screen w)
  /\ writeFails w' = writeFails w
  /\ notifications (screen w') = notifications (screen w)
  /\ (user (screen w) <> None -> inSync w -> inSync w').
Proof.
  unfold inSync. run_blocked.
  destruct (email =? "")%string; [repeat split; auto | ].
  destruct (JS.includes (blockedUsers (screen w)) email); branch;
    [ | repeat split; auto].
  destruct (user (screen w)) as [uid | ]; branch.
  - destruct (writeFails w); branch; repeat split; auto.
  - repeat split. intros H. now contradiction H.
Qed.

(** X15. For a signed-in user whose local blocked list equals the stored
    one, every run of block and unblock operations that are issued one
    after the other, the write of each accepted or rejected before the
    next operation begins, ends with the two lists equal again, and
    leaves the user and the notifications switch as they were.
    Operations that overlap, a second one opened while the write of the
    first is still pending, are not runs of [runOps]. *)
Theorem blocked_list_in_sync (ops : list (Op * bool)) (w : World) :
  user (screen w) <> None ->
  inSync w ->
  inSync (runOps ops w)
  /\ user (screen (runOps ops w)) = user (screen w)
  /\ notifications (screen (runOps ops w)) = notifications (screen w).
Proof.
  revert w. induction ops as [ | [o fails] ops IH]; intros w Hu Hs;
    cbn [runOps]; [auto | ].
  set (w0 := setWriteFails fails w).
  assert (Hu0 : user (screen w0) <> None) by exact Hu.
  assert (Hs0 : inSync w0) by exact Hs.
  assert (K : let w1 := exec (runOp o) w0 in
              user (screen w1) = user (screen w0)
              /\ writeFails w1 = writeFails w0
              /\ notifications (screen w1) = notifications (screen w0)
              /\ (user (screen w0) <> None -> inSync w0 -> inSync w1)).
  { destruct o as [e | e]; cbn [runOp]; [apply block_keeps | apply unblock_keeps]. }
  cbv zeta in K. destruct K as (K1 & _ & K3 & K4).
  destruct (IH (exec (runOp o) w0)) as (I1 & I2 & I3).
  - now rewrite K1.
  - now apply K4.
  - split; [exact I1 | ]. split.
    + now rewrite I2, K1.
    + now rewrite I3, K3.
Qed.

Lemma filter_last_out (email : string) (bl : list string) :
  ~ In email bl ->
  filter (fun u => negb (u =? email)%string) (bl ++ [email]) = bl.
Proof.
  intros H. rewrite filter_app. cbn [filter].
  rewrite String.eqb_refl. cbn [negb].
  rewrite app_nil_r. now apply filter_absent.
Qed.

(** X16. With writes accepted, blocking a well-formed email that is not
    in the list and then unblocking it restores the list, locally and
    in the stored document. *)
Theorem block_then_unblock (email : string) (w : World) (uid : string) :
  user (screen w) = Some uid ->
  writeFails w = false ->
  email <> "" -> emailRegex_test email = true ->
  ~ In email (blockedUsers (screen w)) ->
  let w1 := exec (handleManageBlocked BlockUser email) w in
  let w2 := exec (handleManageBlocked UnblockUser email) w1 in
  blockedUsers (screen w1) = (blockedUsers (screen w) ++ [email])%list
  /\ r_blockedUsers (remote w1) = Some (blockedUsers (screen w) ++ [email])%list
  /\ blockedUsers (screen w2) = blockedUsers (screen w)
  /\ r_blockedUsers (remote w2) = Some (blockedUsers (screen w)).
Proof.
  intros Hu Hf Hne Hre Hnin w1 w2.
  assert (Hinc : JS.includes (blockedUsers (screen w)) email = false).
  { destruct (JS.includes (blockedUsers (screen w)) email) eqn:E; [ | reflexivity].
    apply includes_In in E. contradiction. }
  assert (E1 : w1 = mkWorld
                 (mkScreen (Some uid) (notifications (screen w))
                           (blockedUsers (screen w) ++ [email])%list None)
                 (mkUserDoc (r_notifications (remote w))
                            (Some (blockedUsers (screen w) ++ [email])%list))
                 false
                 (log w1)).
  { unfold w1 at 1. run_blocked.
    destruct (String.eqb_spec email ""); [contradiction | ].
    rewrite Hre, Hinc. branch. rewrite Hu. branch. rewrite Hf. branch.
    f_equal. unfold w1. run_blocked.
    destruct (String.eqb_spec email ""); [contradiction | ].
    rewrite Hre, Hinc. branch. rewrite Hu. branch. rewrite Hf. reflexivity. }
  assert (Hinc1 : JS.includes (blockedUsers (screen w) ++ [email])%list email = true).
  { apply includes_In. apply in_or_app. right. now left. }
  split; [now rewrite E1 | ]. split; [now rewrite E1 | ].
  unfold w2. rewrite E1. run_blocked.
  destruct (String.eqb_spec email ""); [contradiction | ].
  rewrite Hinc1. branch. rewrite (filter_last_out email _ Hnin). split; reflexivity.
Qed.
End BlockedSyncFacts.

(** ** The further properties at sample inputs *)

Lemma sent_message_delivery_witness :
  In (ChatSend.AddDoc "messages" MoreSamples.hello)
     (ChatSend.handleSend "hello there" (Some "Pune") true Samples.signedIn)
  /\ ~ In "m9" (map ChatScreen.docId Samples.pune)
  /\ (In "m9" (map ChatScreen.id
                 (ChatScreen.messages
                    (fst (ChatScreen.subscribeAndReceive (Some "Pune")
                            (ChatSend.addDoc "m9" 400 MoreSamples.hello
                                             Samples.pune)
                            Samples.signedIn))))
      <-> Some "Pune" = Some "Pune").
Proof.
  assert (H1 : In (ChatSend.AddDoc "messages" MoreSamples.hello)
                  (ChatSend.handleSend "hello there" (Some "Pune") true
                                       Samples.signedIn))
    by (vm_compute; left; reflexivity).
  assert (H2 : ~ In "m9" (map ChatScreen.docId Samples.pune))
    by (cbn; intuition discriminate).
  assert (H3 : "Pune" <> "") by discriminate.
  split; [exact H1 | ]. split; [exact H2 | ].
  exact (proj1 (sent_message_delivery "hello there" (Some "Pune") true
                  Samples.signedIn MoreSamples.hello Samples.pune "m9" 400
                  H1 H2)
               "Pune" Samples.signedIn Samples.alice H3 eq_refl).
Defined.

Lemma receipt_after_round_witness :
  ChatScreen.uid MoreSamples.dave <> ChatScreen.uid Samples.alice
  /\ In (ChatScreen.setReadBy ["alice"; "dave"]
           (ChatSend.created "m9" 400 MoreSamples.hello))
        (ChatScreen.markRound MoreSamples.dave "Pune"
           (ChatSend.addDoc "m9" 400 MoreSamples.hello Samples.pune)).
Proof.
  assert (H1 : In (ChatSend.AddDoc "messages" MoreSamples.hello)
                  (ChatSend.handleSend "hello there" (Some "Pune") true
                                       Samples.signedIn))
    by (vm_compute; left; reflexivity).
  assert (H2 : ~ In "m9" (map ChatScreen.docId Samples.pune))
    by (cbn; intuition discriminate).
  assert (H3 : NoDup (map ChatScreen.docId Samples.pune)) by distinct_ids.
  assert (H4 : ChatScreen.uid MoreSamples.dave <> ChatScreen.uid Samples.alice)
    by discriminate.
  split; [exact H4 | ].
  exact (proj1 (proj2 (proj2
           (receipt_after_round "hello there" (Some "Pune") true
              Samples.signedIn Samples.alice MoreSamples.dave MoreSamples.hello
              Samples.pune "m9" 400 "Pune" H1 eq_refl eq_refl H3 H2 H4)))).
Defined.

Lemma rounds_of_two_users_witness :
  NoDup (map ChatScreen.docId Samples.pune)
  /\ Forall (fun d =>
               ChatScreen.whereCity "Pune" d = true ->
               ChatScreen.hasTimestamp d = true ->
               (ChatScreen.senderId (ChatScreen.toMessage d)
                <> ChatScreen.uid Samples.alice ->
                In (ChatScreen.uid Samples.alice) (ChatScreen.readByOf d))
               /\ (ChatScreen.senderId (ChatScreen.toMessage d)
                   <> ChatScreen.uid MoreSamples.dave ->
                   In (ChatScreen.uid MoreSamples.dave)
                      (ChatScreen.readByOf d)))
            (ChatScreen.markRound MoreSamples.dave "Pune"
               (ChatScreen.markRound Samples.alice "Pune" Samples.pune)).
Proof.
  assert (H : NoDup (map ChatScreen.docId Samples.pune)) by distinct_ids.
  split; [exact H | ].
  exact (rounds_of_two_users Samples.alice MoreSamples.dave "Pune"
                             Samples.pune H).
Defined.

Lemma concurrent_rounds_overwrite_witness :
  In MoreSamples.unreadByBoth Samples.pune
  /\ In (ChatScreen.setReadBy ["bob"; "dave"] MoreSamples.unreadByBoth)
        (ChatSend.concurrentRounds Samples.alice MoreSamples.dave "Pune"
                                   Samples.pune).
Proof.
  assert (H0 : NoDup (map ChatScreen.docId Samples.pune)) by distinct_ids.
  assert (H1 : In MoreSamples.unreadByBoth Samples.pune)
    by (right; left; reflexivity).
  assert (H2 : ChatScreen.uid Samples.alice <> ChatScreen.uid MoreSamples.dave)
    by discriminate.
  split; [exact H1 | ].
  exact (proj1 (concurrent_rounds_overwrite Samples.alice MoreSamples.dave
                  "Pune" Samples.pune MoreSamples.unreadByBoth
                  H0 H1 eq_refl eq_refl eq_refl eq_refl H2)).
Defined.

Example concurrent_rounds_pune :
  map ChatScreen.readByOf
      (ChatSend.concurrentRounds Samples.alice MoreSamples.dave "Pune"
                                 Samples.pune)
  = [["alice"; "dave"]; ["bob"; "dave"]; ["carol"]; ["bob"; "alice"; "dave"]].
Proof. reflexivity. Qed.

Lemma handleSendMedia_outcomes_witness :
  ChatScreen.user Samples.signedIn = Some Samples.alice
  /\ "Pune" <> ""
  /\ ChatSend.alertsOf
       (snd (ChatSend.handleSendMedia MoreSamples.clip (Some "Pune") 1700
                                      MoreSamples.fine Samples.signedIn))
     = [].
Proof.
  assert (H : "Pune" <> "") by discriminate.
  split; [reflexivity | ]. split; [exact H | ].
  exact (proj1 (proj2 (proj2 (proj2
           (handleSendMedia_outcomes MoreSamples.clip "Pune" 1700
              MoreSamples.fine Samples.signedIn Samples.alice eq_refl H))))).
Defined.

Example media_path :
  snd (ChatSend.handleSendMedia MoreSamples.clip (Some "Pune") 1700
         (ChatSend.mkIO true true false None true None true) Samples.signedIn)
  = [ChatSend.Fetch "file:///tmp/report.pdf";
     ChatSend.UploadBytes "chat/files/1700_alice";
     ChatSend.ShowAlert "Error" "Failed to send media"].
Proof. reflexivity. Qed.

Lemma audio_label_witness :
  In ("messages", MoreSamples.voice)
     (ChatSend.docsOf
        (snd (ChatSend.handleSendAudio "file:///tmp/a.m4a" (Some "Pune") 1700
                                       MoreSamples.fine Samples.signedIn)))
  /\ ChatSend.audioLabel
       (ChatScreen.toMessage (ChatSend.created "m9" 400 MoreSamples.voice))
     = "1:15".
Proof.
  assert (H0 : "Pune" <> "") by discriminate.
  assert (H1 : In ("messages", MoreSamples.voice)
                  (ChatSend.docsOf
                     (snd (ChatSend.handleSendAudio "file:///tmp/a.m4a"
                             (Some "Pune") 1700 MoreSamples.fine
                             Samples.signedIn))))
    by (left; reflexivity).
  split; [exact H1 | ].
  exact (proj2 (audio_label "file:///tmp/a.m4a" "Pune" 1700 MoreSamples.fine
                  Samples.signedIn Samples.alice MoreSamples.voice "m9" 400
                  eq_refl H0 H1)
               75500 eq_refl ltac:(lia)).
Defined.

Lemma location_row_opens_witness :
  exists d,
    ChatSend.handleSendLocation true (0 # 1, 77 # 1)%Q (Some "Pune")
                                Samples.signedIn
    = [ChatSend.AddDoc "messages" d]
    /\ ChatSend.pressLocation MoreSamples.wholePart
         (ChatScreen.toMessage (ChatSend.created "m9" 400 d)) = [].
Proof.
  assert (H0 : "Pune" <> "") by discriminate.
  destruct (location_row_opens MoreSamples.wholePart (0 # 1, 77 # 1)%Q "Pune"
              Samples.signedIn Samples.alice "m9" 400 eq_refl H0)
    as (d & Hd & _ & Hzero & _).
  exists d. split; [exact Hd | ].
  apply Hzero. left. reflexivity.
Defined.

Lemma team_chat_city_witness :
  ChatScreen.role Samples.employee = Some "employee"
  /\ ChatScreen.messages
       (fst (ChatScreen.subscribeAndReceive
               (Some (Responded.teamChatCity (Some Samples.employee)))
               Samples.pune
               (fst (ChatScreen.onAuthStateChanged (Some "alice")
                       (ChatScreen.GetResolved (Some Samples.employee))
                       ChatScreen.initialState))))
     = map ChatScreen.toMessage (ChatScreen.runQuery "Pune" Samples.pune).
Proof.
  assert (H0 : "Pune" <> "") by discriminate.
  split; [reflexivity | ].
  exact (proj1 (proj2 (proj2
           (proj2 (team_chat_city Samples.employee "alice" Samples.pune eq_refl)
                  "Pune" eq_refl H0)))).
Defined.

Lemma admin_password_unchecked_witness :
  (String.length "abc" < 6)%nat
  /\ Account.handleChangePassword (Some "admin@city.org") None None
                                  "old-secret" "abc"
     = [Account.PasswordAlert "Error"
          "Password must be at least 6 characters long."]
  /\ In (Account.UpdatePassword "abc")
        (Account.adminHandleChangePassword (Some "admin@city.org") None None
                                           "old-secret" "abc").
Proof.
  assert (H : (String.length "abc" < 6)%nat) by (cbn; lia).
  destruct (admin_password_unchecked "admin@city.org" None "old-secret" "abc"
              ltac:(discriminate) ltac:(discriminate) ltac:(discriminate) H)
    as (Ha & Hp).
  split; [exact H | ]. split; [exact Hp | ].
  rewrite Ha. right. left. reflexivity.
Defined.

Lemma blocked_list_in_sync_witness :
  Profile.user (Profile.screen Samples.online) <> None
  /\ ProfileSync.inSync Samples.online
  /\ ProfileSync.inSync
       (Profile.runOps [(Profile.Block "c@d.io", false);
                        (Profile.Block "e@f.gh", true);
                        (Profile.Unblock "c@d.io", true);
                        (Profile.Unblock "c@d.io", false)] Samples.online).
Proof.
  assert (H1 : Profile.user (Profile.screen Samples.online) <> None)
    by discriminate.
  assert (H2 : ProfileSync.inSync Samples.online) by reflexivity.
  split; [exact H1 | ]. split; [exact H2 | ].
  exact (proj1 (blocked_list_in_sync _ Samples.online H1 H2)).
Defined.

Lemma block_then_unblock_witness :
  ~ In "c@d.io" (Profile.blockedUsers (Profile.screen Samples.online))
  /\ Profile.blockedUsers
       (Profile.screen
          (Profile.exec (Profile.handleManageBlocked Profile.UnblockUser "c@d.io")
             (Profile.exec (Profile.handleManageBlocked Profile.BlockUser "c@d.io")
                           Samples.online)))
     = Profile.blockedUsers (Profile.screen Samples.online).
Proof.
  assert (H : ~ In "c@d.io" (Profile.blockedUsers (Profile.screen Samples.online)))
    by (intros []).
  split; [exact H | ].
  exact (proj1 (proj2 (proj2
           (block_then_unblock "c@d.io" Samples.online "u1" eq_refl eq_refl
              ltac:(discriminate) eq_refl H)))).
Defined.

Section PhotoFacts.
Import Photo.

Lemma split_cons (s : string) : exists seg rest, split s = seg :: rest.
Proof.
  induction s as [ | c s (seg & rest & IH)]; cbn [split].
  - now exists "", [].
  - rewrite IH. destruct (c =? ".")%char; eauto.
Qed.

Lemma split_join (s : string) : String.concat "." (split s) = s.
Proof.
  induction s as [ | c s IH]; [reflexivity | ]. cbn [split].
  destruct (split_cons s) as (seg & rest & E). rewrite E in IH |- *.
  destruct (c =? ".")%char eqn:Ec.
  - apply Ascii.eqb_eq in Ec. subst c. rewrite <- IH. reflexivity.
  - rewrite <- IH. now destruct rest.
Qed.

Lemma split_dotless (s : string) : Forall dotless (split s).
Proof.
  induction s as [ | c s IH]; cbn [split].
  - repeat constructor. intros [].
  - destruct (split_cons s) as (seg & rest & E). rewrite E in IH |- *.
    inversion IH as [ | ? ? Hseg Hrest]; subst.
    destruct (Ascii.eqb_spec c ".") as [-> | N].
    + constructor; [intros [] | now constructor].
    + constructor; [ | exact Hrest].
      unfold dotless. cbn. intros [E' | H]; [exact (N E') | now apply Hseg].
Qed.

Lemma split_whole (s : string) : dotless s -> split s = [s].
Proof.
  unfold dotless. induction s as [ | c s IH]; [reflexivity | ].
  cbn [list_ascii_of_string split]. intros H.
  rewrite IH by (intros Hin; apply H; now right).
  destruct (Ascii.eqb_spec c ".") as [-> | N]; [ | reflexivity].
  exfalso. apply H. now left.
Qed.

Lemma last_in {A : Type} (l : list A) (d : A) : l <> [] -> In (last l d) l.
Proof.
  induction l as [ | a l IH]; [congruence | ]. intros _.
  destruct l as [ | b l]; [now left | ].
  right. apply IH. discriminate.
Qed.

Lemma string_app_assoc (a b c : string) :
  ((a ++ b) ++ c = a ++ (b ++ c))%string.
Proof. induction a as [ | ch a IH]; cbn; [reflexivity | now rewrite IH]. Qed.

Lemma concat_last (l : list string) :
  l <> [] ->
  exists stem,
    String.concat "." l = (stem ++ last l "")%string
    /\ (stem = "" \/ exists p, stem = (p ++ ".")%string).
Proof.
  induction l as [ | a l IH]; [congruence | ]. intros _.
  destruct l as [ | b l].
  - exists "". auto.
  - destruct IH as (stem & E & Hs); [discriminate | ].
    change (last (a :: b :: l) "") with (last (b :: l) "").
    change (String.concat "." (a :: b :: l))
      with (a ++ "." ++ String.concat "." (b :: l))%string.
    rewrite E. destruct Hs as [-> | (p & ->)].
    + exists (a ++ ".")%string. split.
      * now rewrite string_app_assoc.
      * right. now exists a.
    + exists ((a ++ "." ++ p) ++ ".")%string. split.
      * now rewrite !string_app_assoc.
      * right. now exists (a ++ "." ++ p)%string.
Qed.

Lemma last_snoc_dot (p : string) : last (split (p ++ ".")) "" = "".
Proof.
  induction p as [ | c p IH]; [reflexivity | ].
  cbn [append split]. destruct (split_cons (p ++ ".")) as (seg & rest & E).
  rewrite E in IH |- *.
  destruct (c =? ".")%char; [exact IH | ].
  destruct rest as [ | seg' rest]; [ | exact IH].
  exfalso. cbn [last] in IH. subst seg.
  pose proof (split_join (p ++ ".")) as J. rewrite E in J. cbn in J.
  destruct p; discriminate.
Qed.

(** X17. The extension used for an uploaded profile photo is never empty
    and has no dot: it is what follows the last dot of the URI, ["jpg"]
    when the URI is empty or ends in a dot, and the whole URI when the
    URI has no dot at all. *)
Theorem fileExtension_spec (uri : string) :
  fileExtension uri <> ""
  /\ dotless (fileExtension uri)
  /\ (exists stem, uri = (stem ++ last (split uri) "")%string
                   /\ (stem = "" \/ exists p, stem = (p ++ ".")%string))
  /\ (dotless uri -> uri <> "" -> fileExtension uri = uri)
  /\ (forall p, uri = (p ++ ".")%string -> fileExtension uri = "jpg")
  /\ (uri = "" -> fileExtension uri = "jpg").
Proof.
  destruct (split_cons uri) as (seg & rest & E).
  assert (Hne : split uri <> []) by (rewrite E; discriminate).
  assert (Hd : dotless (last (split uri) "")).
  { pose proof (split_dotless uri) as F. rewrite Forall_forall in F.
    apply F. now apply last_in. }
  unfold fileExtension.
  split; [ | split; [ | split; [ | split; [ | split]]]].
  - destruct (String.eqb_spec (last (split uri) "") ""); [discriminate | assumption].
  - destruct (String.eqb_spec (last (split uri) "") "");
      [unfold dotless; cbn; intuition discriminate | exact Hd].
  - destruct (concat_last (split uri) Hne) as (stem & Es & Hs).
    rewrite split_join in Es. now exists stem.
  - intros H Hn. rewrite (split_whole uri H). cbn [last].
    now destruct (String.eqb_spec uri "").
  - intros p ->. now rewrite last_snoc_dot.
  - intros ->. reflexivity.
Qed.
End PhotoFacts.

Example storagePath_jpeg :
  Photo.storagePath "u1" "file:///cache/pick.v2.jpeg" 1700
  = "profile_photos/profile_u1_1700.jpeg".
Proof. reflexivity. Qed.

Example storagePath_no_dot :
  Photo.adminStoragePath "u1" "content://media/42"
  = "profile_photos/u1.content://media/42".
Proof. reflexivity. Qed.
